(** * crypto-dashboard: a shallow embedding of [src/main.py]

    The dashboard is a Streamlit script. One pass of the script
    ([main]) updates the session ([update_state]), fetches the risk
    curves when the session is authenticated ([get_metrics], one
    [get_risk] per coin), fetches the prices ([get_price_data]), renders
    one block per coin and finally updates the session again.

    Modelling choices, all visible in the definitions below:
    - [st.session_state] is a dictionary from attribute names to Python
      values: a [gmap string value];
    - Python exceptions are an error monad over the session and over a
      trace of observable events (HTTP requests and rendered widgets);
      a raise keeps the session and the trace as they were at the raise;
    - numbers are binary64 floats (the kernel's [PrimFloat]) or Python
      integers ([Z]);
    - the PyJWT library, the clock, the secrets and the two HTTP
      providers are inputs;
    - layout (columns, spinner, number formatting, [str.title]) is not
      modelled. *)

From Stdlib Require Import ZArith String List Floats Lia.
From stdpp Require Import base option list gmap strings.

Local Open Scope string_scope.
Local Open Scope nat_scope.
Local Open Scope list_scope.
Local Open Scope stdpp_scope.

(** ** Exceptions and results *)

(** The exceptions the script can meet. All of them derive from Python's
    [Exception], so every [except Exception] below catches each of them. *)
Inductive exn : Type :=
  | KeyError (key : string)
  | AttributeError (name : string)
  | IndexError
  | ValueError
  | TypeError
  | OverflowError
  | JwtError        (* any exception of PyJWT: DecodeError, InvalidSignatureError, ... *)
  | ClientError.    (* any exception of aiohttp or of the JSON decoder *)

Inductive result (A : Type) : Type :=
  | Ok (a : A)
  | Raise (e : exn).
Arguments Ok {A} a.
Arguments Raise {A} e.

Definition is_ok {A} (r : result A) : bool :=
  match r with Ok _ => true | Raise _ => false end.

(** ** Python values *)

(** What the script stores in [st.session_state]. *)
Inductive value : Type :=
  | VNone
  | VBool (b : bool)
  | VStr (s : string).

(** Python truthiness: [None], [False] and the empty string are falsy. *)
Definition truthy (v : value) : bool :=
  match v with
  | VNone => false
  | VBool b => b
  | VStr s => negb (String.eqb s "")
  end.

(** A JSON number of a token's payload, or any other JSON value. *)
Inductive jval : Type :=
  | JInt (n : Z)
  | JFloat (f : float)
  | JOther.

(** [int(f)] for a float: truncation towards zero; [ValueError] on a NaN
    and [OverflowError] on an infinity. *)
Definition py_int (f : float) : result Z :=
  match Prim2SF f with
  | S754_nan => Raise ValueError
  | S754_infinity _ => Raise OverflowError
  | S754_zero _ => Ok 0%Z
  | S754_finite s m e =>
      let mag := match e with
                 | Zneg p => Z.shiftr (Zpos m) (Zpos p)
                 | _ => Z.shiftl (Zpos m) e
                 end in
      Ok (if s then (- mag)%Z else mag)
  end.

(** [f >= n] for a float and a Python integer: Python compares the exact
    values; a NaN compares false. *)
Definition float_ge_int (f : float) (n : Z) : bool :=
  match Prim2SF f with
  | S754_nan => false
  | S754_infinity s => negb s
  | S754_zero _ => (n <=? 0)%Z
  | S754_finite s m e =>
      let sm := if s then Zneg m else Zpos m in
      match e with
      | Zneg p => (Z.shiftl n (Zpos p) <=? sm)%Z
      | _ => (n <=? Z.shiftl sm e)%Z
      end
  end.

(** [x >= n] where [x] was read from a JSON payload. *)
Definition py_ge (x : jval) (n : Z) : result bool :=
  match x with
  | JInt a => Ok (n <=? a)%Z
  | JFloat f => Ok (float_ge_int f n)
  | JOther => Raise TypeError
  end.

(** [d[k]] on a dictionary. *)
Definition getitem {V} (d : gmap string V) (k : string) : result V :=
  match d !! k with
  | Some v => Ok v
  | None => Raise (KeyError k)
  end.

(** ** Data of the providers *)

(** A risk curve as a data frame with columns "Price" and "USD Risk" and
    the default index 0, 1, ..., one row per list element. *)
Abbreviation DataFrame := (list (float * float)).

(** The JSON envelope of the risk provider: an object whose optional
    "data" member maps a currency to an array of [price, rawRisk] pairs. *)
Record envelope : Type := Envelope {
  env_data : option (gmap string (list (float * float)))
}.

(** The price provider's JSON: coin id to an object of numeric fields. *)
Abbreviation api_data := (gmap string (gmap string float)).

(** ** Observable events *)

Inductive event : Type :=
  | CheckUserAccess                        (* ghost: [check_user_access] was entered *)
  | RiskGet (token url : string)           (* GET to the risk provider, bearer token *)
  | PriceGet (ids : string)                (* GET to the price provider *)
  | Success (msg : string)                 (* st.success *)
  | Balloons                               (* st.balloons *)
  | Error (msg : string)                   (* st.error *)
  | Warning (msg : string)                 (* st.warning *)
  | Header (title : string)                (* st.header *)
  | Metric (usd change : float)            (* st.metric *)
  | Risk (pct : float)                     (* the "Risk" markdown line *)
  | Chart (df : DataFrame)                 (* the "See Chart" expander *)
  | Text (s : string).                     (* st.text *)

(** ** The monad of the script *)

(** A computation runs on the session and yields the events it caused,
    the session it left and a value or an exception. *)
#[projections(primitive)]
Record outcome (A : Type) : Type := Outcome {
  out_events : list event;
  out_state : gmap string value;
  out_result : result A
}.
Arguments Outcome {A} _ _ _.
Arguments out_events {A} _.
Arguments out_state {A} _.
Arguments out_result {A} _.

Definition M (A : Type) : Type := gmap string value → outcome A.

#[export] Instance M_ret : MRet M := λ A a s, Outcome [] s (Ok a).

#[export] Instance M_bind : MBind M := λ A B k m s,
  let o := m s in
  match out_result o with
  | Ok a =>
      let o' := k a (out_state o) in
      Outcome (out_events o ++ out_events o') (out_state o') (out_result o')
  | Raise e => Outcome (out_events o) (out_state o) (Raise e)
  end.

Definition raise {A} (e : exn) : M A := λ s, Outcome [] s (Raise e).

Definition lift {A} (r : result A) : M A := λ s, Outcome [] s r.

Definition emit (ev : event) : M unit := λ s, Outcome [ev] s (Ok tt).

(** [try: m  except Exception as e: h e] *)
Definition try_except {A} (m : M A) (h : exn → M A) : M A := λ s,
  let o := m s in
  match out_result o with
  | Ok _ => o
  | Raise e =>
      let o' := h e (out_state o) in
      Outcome (out_events o ++ out_events o') (out_state o') (out_result o')
  end.

(** [st.session_state.name] *)
Definition getattr (name : string) : M value := λ s,
  match s !! name with
  | Some v => Outcome [] s (Ok v)
  | None => Outcome [] s (Raise (AttributeError name))
  end.

(** [st.session_state.name = v] *)
Definition setattr (name : string) (v : value) : M unit := λ s,
  Outcome [] (<[name:=v]> s) (Ok tt).

(** [if name not in st.session_state: st.session_state.name = v] *)
Definition setdefault (name : string) (v : value) : M unit := λ s,
  match s !! name with
  | Some _ => Outcome [] s (Ok tt)
  | None => Outcome [] (<[name:=v]> s) (Ok tt)
  end.

(** [a and b] and [a or b] on conditions, with Python's short circuit. *)
Definition and_ (a b : M bool) : M bool :=
  a ≫= λ x : bool, if x then b else mret false.
Definition or_ (a b : M bool) : M bool :=
  a ≫= λ x : bool, if x then mret true else b.

(** [asyncio.gather] over the tasks: every task is started; the results come in
    task order; when a task raises, the gather raises. *)
Fixpoint gather {A} (tasks : list (M A)) (s : gmap string value) : outcome (list A) :=
  match tasks with
  | [] => Outcome [] s (Ok [])
  | t :: ts =>
      let o := t s in
      let os := gather ts (out_state o) in
      Outcome (out_events o ++ out_events os) (out_state os)
        match out_result o, out_result os with
        | Ok a, Ok l => Ok (a :: l)
        | Raise e, _ => Raise e
        | Ok _, Raise e => Raise e
        end
  end.

(** [for i, x in enumerate(l, start): body i x] *)
Fixpoint for_enumerate {A} (start : nat) (l : list A) (body : nat → A → M unit) : M unit :=
  match l with
  | [] => mret tt
  | x :: l' => body start x;; for_enumerate (S start) l' body
  end.

#[export] Instance M_fmap : FMap M := λ A B f m, m ≫= λ x, mret (f x).

(** [l[i]] on a list. *)
Definition list_item {A} (l : list A) (i : nat) : result A :=
  match l !! i with
  | Some x => Ok x
  | None => Raise IndexError
  end.

(** [x is not None] *)
Definition is_not_None {A} (x : option A) : bool :=
  match x with Some _ => true | None => false end.

(** [max(l)] on a list of indices: [ValueError] on the empty list. *)
Definition py_max (l : list nat) : result nat :=
  match l with
  | [] => Raise ValueError
  | i :: l' => Ok (foldl Nat.max i l')
  end.

(** ** The environment of one run *)

(** [st.secrets] and the two HTTP providers. The risk provider answers a
    bearer token and a URL, the price provider the comma-joined ids. *)
Record world : Type := World {
  secrets : gmap string string;
  risk_api : string → string → result envelope;
  price_api : string → result api_data
}.

(** An entry of [src/coins.json]. *)
Record coin : Type := Coin {
  coin_id : string;
  coin_name : string
}.

Section Dashboard.

(** PyJWT: [jwt.decode(token, key, algorithms=["HS256"])] returns the
    payload or raises; [jwt.encode(payload, key, algorithm="HS256")]. *)
Context (jwt_decode : string → string → result (gmap string jval)).
Context (jwt_encode : gmap string jval → string → string).

(** ** Risk data client *)

Definition get_risk (w : world) (token url : string) : M (option DataFrame) :=
  emit (RiskGet token url);;
  data ← lift (risk_api w token url);
  match env_data data with
  | Some d =>
      usd ← lift (getitem d "USD");
      let df := map (λ row : float * float, (row.1, (row.2 * 100)%float)) usd in
      mret (Some df)
  | None => mret None
  end.

Definition get_metrics (w : world) (names : list string) : M (list (option DataFrame)) :=
  try_except
    (token ← lift (getitem (secrets w) "TOKEN");
     base_url ← lift (getitem (secrets w) "URL");
     let tasks := map (λ name, get_risk w token (base_url +:+ name)) names in
     charts ← gather tasks;
     mret charts)
    (λ _, mret []).

(** ** Market data client *)

Definition get_price_data (w : world) (names : list string) : M api_data :=
  let ids := String.concat "," names in
  emit (PriceGet ids);;
  lift (price_api w ids).

(** ** Token codec *)

Definition check_user_access (w : world) (now : float) : M bool :=
  emit CheckUserAccess;;
  try_except
    (token ← getattr "user_access_token";
     key ← lift (getitem (secrets w) "SECRET_KEY");
     encoded_jwt ← lift (match token with
                         | VStr t => jwt_decode t key
                         | _ => Raise JwtError
                         end);
     exp ← lift (getitem encoded_jwt "exp");
     seconds ← lift (py_int now);
     valid ← lift (py_ge exp seconds);
     if valid : bool then mret true
     else setattr "user_access_token" VNone;; mret false)
    (λ _, mret false).

Definition generate_user_access (w : world) (now : float) : M string :=
  let payload : gmap string jval := {[ "exp" := JFloat (now + 99999999)%float ]} in
  key ← lift (getitem (secrets w) "SECRET_KEY");
  let encoded_jwt := jwt_encode payload key in
  emit (Success "Successfully Created Token");;
  mret encoded_jwt.

(** ** Session state machine *)

Definition user_message : M unit :=
  c1 ← and_ (truthy <$> getattr "authenticated") (truthy <$> getattr "callback");
  if c1 : bool then emit (Success "Successfully Authenticated");; emit Balloons
  else
  c2 ← truthy <$> getattr "authenticated";
  if c2 : bool then mret tt
  else
  c3 ← and_ (truthy <$> getattr "user_access_token")
            (negb ∘ truthy <$> getattr "callback");
  if c3 : bool then emit (Error "Invalid Token")
  else
  c4 ← negb ∘ truthy <$> getattr "callback";
  if c4 : bool then emit (Warning "Please Authenticate")
  else mret tt.

Definition update_state (w : world) (now : float) (kwargs : gmap string value) : M unit :=
  (λ s, Outcome [] (kwargs ∪ s) (Ok tt));;
  setdefault "user_access_token" VNone;;
  setdefault "authenticated" (VBool false);;
  setdefault "button_pressed" (VBool false);;
  setdefault "callback" (VBool false);;
  c ← or_ (and_ (truthy <$> getattr "user_access_token")
                (negb ∘ truthy <$> getattr "authenticated"))
          (and_ (truthy <$> getattr "user_access_token")
                (truthy <$> getattr "button_pressed"));
  (if c : bool then
     b ← check_user_access w now;
     setattr "authenticated" (VBool b)
   else mret tt);;
  pressed ← truthy <$> getattr "button_pressed";
  (if pressed : bool then user_message else mret tt);;
  setattr "button_pressed" (VBool false);;
  setattr "callback" (VBool false).

(** ** Aggregator *)

(** [max(df.index[df["Price"] <= usd].tolist())] *)
Definition matched_index (df : DataFrame) (usd : float) : result nat :=
  let rows := imap (λ i (row : float * float), (i, row)) df in
  let selected := List.filter (λ r : nat * (float * float), (r.2.1 <=? usd)%float) rows in
  py_max (map fst selected).

(** The body of the loop over the coins; returning early is [continue]. *)
Definition render_coin (coins : list coin) (data : api_data)
    (charts : list (option DataFrame)) (i : nat) (c : string) : M unit :=
  quote ← lift (getitem data c);
  if Nat.eqb (size quote) 0 then mret tt
  else
  entry ← lift (list_item coins i);
  emit (Header (coin_name entry));;
  usd ← lift (getitem quote "usd");
  change ← lift (getitem quote "usd_24h_change");
  emit (Metric usd change);;
  c1 ← and_ (and_ (mret (negb (Nat.eqb (length charts) 0)))
                  (is_not_None <$> lift (list_item charts i)))
            (truthy <$> getattr "authenticated");
  if c1 : bool then
    chart ← lift (list_item charts i);
    match chart with
    | Some df =>
        index ← lift (matched_index df usd);
        row ← lift (match df !! index with
                    | Some r => Ok r
                    | None => Raise (KeyError "USD Risk")
                    end);
        emit (Risk row.2);;
        emit (Chart df)
    | None => mret tt
    end
  else
  c2 ← and_ (and_ (mret (negb (Nat.eqb (length charts) 0)))
                  (negb ∘ is_not_None <$> lift (list_item charts i)))
            (truthy <$> getattr "authenticated");
  if c2 : bool then emit (Text "No Chart Data")
  else mret tt.

(** One run of the script. [button] is what [st.button] returns in this
    run: [true] exactly in the run that follows a click. *)
Definition main (w : world) (coins : list coin) (now_first now_last : float)
    (button : bool) : M unit :=
  update_state w now_first ∅;;
  let ids := map coin_id coins in
  authenticated ← truthy <$> getattr "authenticated";
  charts ← (if authenticated : bool then get_metrics w ids else mret []);
  data ← get_price_data w ids;
  for_enumerate 0 ids (render_coin coins data charts);;
  setattr "button_pressed" (VBool button);;
  update_state w now_last ∅.

(** The button's [on_click] callback, run before the script reruns. *)
Definition on_click (w : world) (now : float) (user_access_token : string) : M unit :=
  update_state w now
    (<["user_access_token" := VStr user_access_token]>
       (<["button_pressed" := VBool true]> {["callback" := VBool true]})).

End Dashboard.

(** * Vocabulary of the properties *)

(** The value of an attribute of the session; [None] when it is not set. *)
Definition attr (name : string) (s : gmap string value) : value :=
  default VNone (s !! name).

Definition has_attr (name : string) (s : gmap string value) : Prop :=
  s !! name = Some (attr name s).

(** The four attributes [update_state] initialises are set. *)
Definition ready (s : gmap string value) : Prop :=
  has_attr "user_access_token" s ∧ has_attr "authenticated" s
  ∧ has_attr "button_pressed" s ∧ has_attr "callback" s.

Definition with_default (name : string) (v : value) (s : gmap string value) :
    gmap string value :=
  match s !! name with
  | Some _ => s
  | None => <[name:=v]> s
  end.

(** The session [update_state] works on: the keyword arguments merged
    into the session, then the four defaults. *)
Definition entry_state (kwargs s : gmap string value) : gmap string value :=
  with_default "callback" (VBool false)
    (with_default "button_pressed" (VBool false)
       (with_default "authenticated" (VBool false)
          (with_default "user_access_token" VNone (kwargs ∪ s)))).

(** The condition under which [update_state] calls [check_user_access]. *)
Definition needs_validation (s : gmap string value) : bool :=
  truthy (attr "user_access_token" s) && negb (truthy (attr "authenticated" s))
  || truthy (attr "user_access_token" s) && truthy (attr "button_pressed" s).

(** The message of [user_message] as a function of the three flags it reads. *)
Definition message_of (authenticated callback token : bool) : list event :=
  if authenticated && callback then [Success "Successfully Authenticated"; Balloons]
  else if authenticated then []
  else if token && negb callback then [Error "Invalid Token"]
  else if negb callback then [Warning "Please Authenticate"]
  else [].

Definition is_message (ev : event) : bool :=
  match ev with
  | Success _ | Balloons | Error _ | Warning _ => true
  | _ => false
  end.

(** A request to the risk provider, or a risk figure or chart on screen. *)
Definition risk_event (ev : event) : bool :=
  match ev with
  | RiskGet _ _ | Risk _ | Chart _ => true
  | _ => false
  end.

(** The curve [get_risk] stores for the provider's rows. *)
Definition scale (usd : list (float * float)) : DataFrame :=
  map (λ row : float * float, (row.1, (row.2 * 100)%float)) usd.

(** The slot of one asset, from the provider's answer. *)
Definition slot_of (r : result envelope) : result (option DataFrame) :=
  match r with
  | Ok (Envelope None) => Ok None
  | Ok (Envelope (Some d)) =>
      match d !! "USD" with
      | Some usd => Ok (Some (scale usd))
      | None => Raise (KeyError "USD")
      end
  | Raise e => Raise e
  end.

(** The indices [matched_index] takes the maximum of. *)
Definition selected (df : DataFrame) (usd : float) : list nat :=
  map fst
    (List.filter (λ r : nat * (float * float), (r.2.1 <=? usd)%float)
       (imap (λ i (row : float * float), (i, row)) df)).

(** [m] leaves the session as it found it, also when it raises. *)
Definition preserves {A} (m : M A) : Prop := ∀ s, out_state (m s) = s.

(** Every event of [m] satisfies [P]. *)
Definition emits {A} (P : event → Prop) (m : M A) : Prop :=
  ∀ s, Forall P (out_events (m s)).

(** [m] keeps the invariant [I] and emits only events that satisfy [P]. *)
Definition keeps {A} (I : gmap string value → Prop) (P : event → Prop) (m : M A) : Prop :=
  ∀ s, I s → I (out_state (m s)) ∧ Forall P (out_events (m s)).

(** The session is authenticated and no button press is pending. *)
Definition settled (s : gmap string value) : Prop :=
  truthy (attr "authenticated" s) = true ∧ truthy (attr "button_pressed" s) = false.

(** The inputs of one run of the script. *)
Record run : Type := Run {
  run_world : world;
  run_coins : list coin;
  run_now_first : float;
  run_now_last : float
}.

(** A request to the price provider. *)
Definition is_price_request (ev : event) : bool :=
  match ev with PriceGet _ => true | _ => false end.

(** A risk figure, a chart or the "No Chart Data" text. *)
Definition chart_event (ev : event) : bool :=
  match ev with Risk _ | Chart _ | Text _ => true | _ => false end.

(** A widget of the coin blocks. *)
Definition rendered (ev : event) : bool :=
  match ev with
  | Header _ | Metric _ _ | Risk _ | Chart _ | Text _ => true
  | _ => false
  end.

(** The attributes [update_state] reads and writes. *)
Definition session_attributes : list string :=
  ["user_access_token"; "authenticated"; "button_pressed"; "callback"].

(** The session as every pass of [update_state] leaves it. *)
Definition flags_reset (s : gmap string value) : Prop :=
  ready s
  ∧ s !! "button_pressed" = Some (VBool false)
  ∧ s !! "callback" = Some (VBool false).

Section Vocabulary.

Context (jwt_decode : string → string → result (gmap string jval)).

(** The session after the validation step of [update_state]. *)
Definition validated (w : world) (now : float) (s : gmap string value) : gmap string value :=
  if needs_validation s then
    let o := check_user_access jwt_decode w now s in
    <["authenticated" := VBool (match out_result o with Ok b => b | Raise _ => false end)]>
      (out_state o)
  else s.

(** Successive runs of the script in which the button is not clicked;
    a run that raises ends there and leaves its session to the next. *)
Fixpoint renders (runs : list run) (s : gmap string value) :
    list event * gmap string value :=
  match runs with
  | [] => ([], s)
  | r :: runs' =>
      let o := main jwt_decode (run_world r) (run_coins r) (run_now_first r)
                 (run_now_last r) false s in
      let rest := renders runs' (out_state o) in
      (out_events o ++ rest.1, rest.2)
  end.

End Vocabulary.

(** * Fixtures for concrete runs *)

#[local] Set Warnings "-inexact-float".

Module Fixture.

(** A stub of [jwt.decode]: under the key "s3cret" three tokens verify,
    everything else is refused. *)
Definition jwt_decode (token key : string) : result (gmap string jval) :=
  if negb (String.eqb key "s3cret") then Raise JwtError
  else if String.eqb token "until-2000" then Ok {[ "exp" := JInt 2000 ]}
  else if String.eqb token "until-2000.5" then Ok {[ "exp" := JFloat 2000.5 ]}
  else if String.eqb token "no-exp" then Ok ∅
  else Raise JwtError.

Definition jwt_encode (payload : gmap string jval) (key : string) : string :=
  "signed-with-" +:+ key.

Definition bitcoin_curve : list (float * float) :=
  [(40000, 0.1); (60000, 0.3)]%float.

Definition solana_curve : list (float * float) :=
  [(200, 0.5); (300, 0.75)]%float.

(** The risk provider: a curve for bitcoin and for solana, a failure for
    ethereum, an envelope whose "data" has no "USD" for tether, and an
    envelope without "data" for every other coin. *)
Definition risk (token url : string) : result envelope :=
  if String.eqb url "https://risk.example/bitcoin"
  then Ok (Envelope (Some {[ "USD" := bitcoin_curve ]}))
  else if String.eqb url "https://risk.example/ethereum"
  then Raise ClientError
  else if String.eqb url "https://risk.example/solana"
  then Ok (Envelope (Some {[ "USD" := solana_curve ]}))
  else if String.eqb url "https://risk.example/tether"
  then Ok (Envelope (Some ∅))
  else Ok (Envelope None).

(** The price provider: quotes for three coins, an empty object for
    "delisted", and no entry for any other coin. *)
Definition prices (ids : string) : result api_data :=
  Ok (<["bitcoin" := <["usd" := 50000%float]> {["usd_24h_change" := 2.1%float]}]>
     (<["ethereum" := <["usd" := 3000%float]> {["usd_24h_change" := (-1.0)%float]}]>
     (<["solana" := <["usd" := 150%float]> {["usd_24h_change" := 0.5%float]}]>
     {["delisted" := ∅]}))).

Definition the_secrets : gmap string string :=
  <["SECRET_KEY" := "s3cret"]>
    (<["TOKEN" := "bearer"]> {["URL" := "https://risk.example/"]}).

Definition the_world : world := World the_secrets risk prices.

Definition bitcoin : coin := Coin "bitcoin" "bitcoin".
Definition ethereum : coin := Coin "ethereum" "ethereum".
Definition solana : coin := Coin "solana" "solana".
Definition dogecoin : coin := Coin "dogecoin" "dogecoin".

(** A session that authenticated with the token "until-2000". *)
Definition logged_in : gmap string value :=
  <["user_access_token" := VStr "until-2000"]> {["authenticated" := VBool true]}.

(** A session that holds a token no key verifies. *)
Definition with_garbage : gmap string value :=
  {["user_access_token" := VStr "garbage"]}.

End Fixture.

Module Outage.

(** No credentials of the risk provider and no signing key. *)
Definition unconfigured : world := World ∅ Fixture.risk Fixture.prices.

(** The price provider is down. *)
Definition no_prices : world :=
  World Fixture.the_secrets Fixture.risk (λ _, Raise ClientError).

End Outage.

Module Codec.

(** A stub of PyJWT in which the token issued at 1000 under a key decodes
    under that key to the payload it was made from. *)
Definition jwt_encode (payload : gmap string jval) (key : string) : string :=
  "jwt." +:+ key.

Definition jwt_decode (token key : string) : result (gmap string jval) :=
  if String.eqb token ("jwt." +:+ key) then Ok {["exp" := JFloat 100000999]}
  else Raise JwtError.

End Codec.

(** * Properties *)

(** ** Running the monad *)

Lemma bind_run {A B} (m : M A) (k : A → M B) s :
  (m ≫= k) s =
  match out_result (m s) with
  | Ok a =>
      Outcome (out_events (m s) ++ out_events (k a (out_state (m s))))
        (out_state (k a (out_state (m s)))) (out_result (k a (out_state (m s))))
  | Raise e => Outcome (out_events (m s)) (out_state (m s)) (Raise e)
  end.
Proof. reflexivity. Qed.

Lemma bind_ok {A B} (m : M A) (k : A → M B) s a :
  out_result (m s) = Ok a →
  (m ≫= k) s =
  Outcome (out_events (m s) ++ out_events (k a (out_state (m s))))
    (out_state (k a (out_state (m s)))) (out_result (k a (out_state (m s)))).
Proof. intros H. rewrite bind_run, H. reflexivity. Qed.

(** A step that neither emits nor raises. *)
Lemma bind_silent {A B} (m : M A) (k : A → M B) s s' a :
  m s = Outcome [] s' (Ok a) → (m ≫= k) s = k a s'.
Proof. intros H. unfold mbind, M_bind. rewrite H. reflexivity. Qed.

Lemma bind_pure {A B} (r : result A) (k : A → M B) s :
  (lift r ≫= k) s =
  match r with
  | Ok a => k a s
  | Raise e => Outcome [] s (Raise e)
  end.
Proof. destruct r; reflexivity. Qed.

Lemma bind_mret {A} (m : M A) s : (m ≫= λ x, mret x) s = m s.
Proof.
  unfold mbind, M_bind, mret, M_ret. destruct (m s) as [ev st [a|e]]; cbn.
  - by rewrite app_nil_r.
  - reflexivity.
Qed.

Lemma run_emit {B} ev (k : unit → M B) s evs s' r :
  k tt s = Outcome evs s' r → (emit ev ≫= k) s = Outcome (ev :: evs) s' r.
Proof. intros H. unfold mbind, M_bind, emit. cbn. rewrite H. reflexivity. Qed.

Lemma run_lift {A B} (r : result A) (k : A → M B) s a o :
  r = Ok a → k a s = o → (lift r ≫= k) s = o.
Proof. intros -> <-. reflexivity. Qed.

Lemma and_silent (a b : M bool) s x y :
  a s = Outcome [] s (Ok x) → b s = Outcome [] s (Ok y) →
  and_ a b s = Outcome [] s (Ok (x && y)).
Proof.
  intros Ha Hb. unfold and_. rewrite (bind_silent _ _ _ _ _ Ha).
  destruct x; [exact Hb | reflexivity].
Qed.

Lemma or_silent (a b : M bool) s x y :
  a s = Outcome [] s (Ok x) → b s = Outcome [] s (Ok y) →
  or_ a b s = Outcome [] s (Ok (x || y)).
Proof.
  intros Ha Hb. unfold or_. rewrite (bind_silent _ _ _ _ _ Ha).
  destruct x; [reflexivity | exact Hb].
Qed.

Lemma getitem_some {V} (d : gmap string V) k v : d !! k = Some v → getitem d k = Ok v.
Proof. intros H. unfold getitem. by rewrite H. Qed.

Lemma list_item_some {A} (l : list A) i x : l !! i = Some x → list_item l i = Ok x.
Proof. intros H. unfold list_item. by rewrite H. Qed.

(** ** Frame rules: what a computation leaves alone *)

Section Rules.

Context {A B : Type}.

Lemma preserves_bind (m : M A) (k : A → M B) :
  preserves m → (∀ a, preserves (k a)) → preserves (m ≫= k).
Proof.
  intros Hm Hk s. rewrite bind_run.
  destruct (out_result (m s)); cbn; [rewrite Hk|]; apply Hm.
Qed.

Lemma preserves_fmap (f : A → B) (m : M A) : preserves m → preserves (f <$> m).
Proof. intros Hm. apply preserves_bind; [done|]. by intros a s. Qed.

Lemma preserves_lift (r : result A) : preserves (lift r).
Proof. by intros s. Qed.

Lemma preserves_mret (a : A) : preserves (mret a).
Proof. by intros s. Qed.

Lemma preserves_try_except (m : M A) h :
  preserves m → (∀ e, preserves (h e)) → preserves (try_except m h).
Proof.
  intros Hm Hh s. unfold try_except.
  destruct (out_result (m s)); cbn; [|rewrite Hh]; apply Hm.
Qed.

Lemma preserves_gather (tasks : list (M A)) :
  Forall preserves tasks → preserves (gather tasks).
Proof.
  induction 1 as [|t ts Ht _ IH]; intros s; cbn; [done|].
  by rewrite IH, Ht.
Qed.

Lemma emits_bind P (m : M A) (k : A → M B) :
  emits P m → (∀ a, emits P (k a)) → emits P (m ≫= k).
Proof.
  intros Hm Hk s. rewrite bind_run.
  destruct (out_result (m s)); cbn.
  - apply Forall_app. split; [apply Hm | apply Hk].
  - apply Hm.
Qed.

Lemma emits_fmap P (f : A → B) (m : M A) : emits P m → emits P (f <$> m).
Proof. intros Hm. apply emits_bind; [done|]. intros a s. constructor. Qed.

Lemma emits_lift P (r : result A) : emits P (lift r).
Proof. intros s. constructor. Qed.

Lemma emits_mret P (a : A) : emits P (mret a).
Proof. intros s. constructor. Qed.

Lemma emits_try_except P (m : M A) h :
  emits P m → (∀ e, emits P (h e)) → emits P (try_except m h).
Proof.
  intros Hm Hh s. unfold try_except.
  destruct (out_result (m s)); cbn; [apply Hm|].
  apply Forall_app. split; [apply Hm | apply Hh].
Qed.

Lemma emits_gather P (tasks : list (M A)) :
  Forall (emits P) tasks → emits P (gather tasks).
Proof.
  induction 1 as [|t ts Ht _ IH]; intros s; cbn; [constructor|].
  apply Forall_app. split; [apply Ht | apply IH].
Qed.

Lemma keeps_bind I P (m : M A) (k : A → M B) :
  keeps I P m → (∀ a, keeps I P (k a)) → keeps I P (m ≫= k).
Proof.
  intros Hm Hk s Hs. rewrite bind_run. destruct (Hm s Hs) as [H1 H2].
  destruct (out_result (m s)); cbn; [|done].
  destruct (Hk a _ H1) as [H3 H4]. split; [done|]. by apply Forall_app.
Qed.

Lemma keeps_frame I P (m : M A) : preserves m → emits P m → keeps I P m.
Proof. intros Hp He s Hs. rewrite Hp. split; [done | apply He]. Qed.

End Rules.

Lemma preserves_emit ev : preserves (emit ev).
Proof. by intros s. Qed.

Lemma preserves_getattr name : preserves (getattr name).
Proof. intros s. unfold getattr. by destruct (s !! name). Qed.

Lemma preserves_and a b : preserves a → preserves b → preserves (and_ a b).
Proof.
  intros Ha Hb. apply preserves_bind; [done|]. intros []; [done|apply preserves_mret].
Qed.

Lemma emits_emit (P : event → Prop) ev : P ev → emits P (emit ev).
Proof. intros H s. by repeat constructor. Qed.

Lemma emits_getattr P name : emits P (getattr name).
Proof. intros s. unfold getattr. destruct (s !! name); constructor. Qed.

Lemma emits_and P a b : emits P a → emits P b → emits P (and_ a b).
Proof.
  intros Ha Hb. apply emits_bind; [done|]. intros []; [done|apply emits_mret].
Qed.

Lemma preserves_for_enumerate {A} (body : nat → A → M unit) l start :
  (∀ i x, preserves (body i x)) → preserves (for_enumerate start l body).
Proof.
  intros Hb. revert start. induction l as [|x l IH]; intros start; cbn.
  - apply preserves_mret.
  - apply preserves_bind; [apply Hb | intros _; apply IH].
Qed.

Lemma emits_for_enumerate {A} P (body : nat → A → M unit) l start :
  (∀ i x, emits P (body i x)) → emits P (for_enumerate start l body).
Proof.
  intros Hb. revert start. induction l as [|x l IH]; intros start; cbn.
  - apply emits_mret.
  - apply emits_bind; [apply Hb | intros _; apply IH].
Qed.

Ltac preserve :=
  repeat first
    [ apply preserves_mret | apply preserves_lift | apply preserves_emit
    | apply preserves_getattr | apply preserves_fmap | apply preserves_and
    | apply preserves_bind; [|intros ?]
    | case_match ].

(** ** Attributes of the session *)

Lemma has_attr_is_Some name s : has_attr name s ↔ is_Some (s !! name).
Proof.
  unfold has_attr, attr. split.
  - intros ->. eauto.
  - intros [v ->]. reflexivity.
Qed.

Lemma has_attr_insert name k v s : has_attr name s → has_attr name (<[k:=v]> s).
Proof.
  rewrite !has_attr_is_Some. intros H.
  destruct (decide (k = name)) as [->|Hne].
  - rewrite lookup_insert_eq. eauto.
  - rewrite lookup_insert_ne by done. done.
Qed.

Lemma has_attr_insert_eq name v s : has_attr name (<[name:=v]> s).
Proof. apply has_attr_is_Some. rewrite lookup_insert_eq. eauto. Qed.

Lemma has_attr_with_default name k v s :
  has_attr name s → has_attr name (with_default k v s).
Proof.
  unfold with_default. destruct (s !! k); [done|]. apply has_attr_insert.
Qed.

Lemma has_attr_with_default_eq name v s : has_attr name (with_default name v s).
Proof.
  unfold with_default. destruct (s !! name) eqn:E.
  - apply has_attr_is_Some. rewrite E. eauto.
  - apply has_attr_insert_eq.
Qed.

Lemma ready_insert k v s : ready s → ready (<[k:=v]> s).
Proof. intros (?&?&?&?). repeat split; by apply has_attr_insert. Qed.

Lemma entry_state_ready kwargs s : ready (entry_state kwargs s).
Proof.
  unfold entry_state. repeat split;
    repeat first [ apply has_attr_with_default_eq | apply has_attr_with_default ].
Qed.

Lemma attr_insert_eq name v s : attr name (<[name:=v]> s) = v.
Proof. unfold attr. by rewrite lookup_insert_eq. Qed.

Lemma attr_insert_ne name k v s : k ≠ name → attr name (<[k:=v]> s) = attr name s.
Proof. intros. unfold attr. by rewrite lookup_insert_ne. Qed.

Lemma attr_lookup name s v : s !! name = Some v → attr name s = v.
Proof. intros H. unfold attr. by rewrite H. Qed.

(** The defaults are falsy, so they do not change the truth of a flag. *)
Lemma truthy_attr_with_default name k v s :
  truthy v = false →
  truthy (attr name (with_default k v s)) = truthy (attr name s).
Proof.
  intros Hv. unfold with_default. destruct (s !! k) eqn:E; [done|].
  destruct (decide (k = name)) as [->|Hne].
  - rewrite attr_insert_eq. unfold attr. by rewrite E.
  - by rewrite attr_insert_ne.
Qed.

Lemma truthy_attr_entry_state name s :
  truthy (attr name (entry_state ∅ s)) = truthy (attr name s).
Proof.
  unfold entry_state. rewrite !truthy_attr_with_default by done.
  by rewrite (left_id_L ∅ (∪)).
Qed.

Lemma setdefault_run name v s :
  setdefault name v s = Outcome [] (with_default name v s) (Ok tt).
Proof. unfold setdefault, with_default. destruct (s !! name); reflexivity. Qed.

Lemma read_attr {C} (f : value → C) name s :
  has_attr name s → (f <$> getattr name) s = Outcome [] s (Ok (f (attr name s))).
Proof.
  intros [v Hv]%has_attr_is_Some.
  unfold fmap, M_fmap, mbind, M_bind, mret, M_ret, getattr, attr.
  rewrite Hv. reflexivity.
Qed.

Lemma needs_validation_iff s :
  needs_validation s = true ↔
  truthy (attr "user_access_token" s) = true
  ∧ (truthy (attr "authenticated" s) = false ∨ truthy (attr "button_pressed" s) = true).
Proof.
  unfold needs_validation.
  destruct (truthy (attr "user_access_token" s)), (truthy (attr "authenticated" s)),
    (truthy (attr "button_pressed" s)); cbn; intuition congruence.
Qed.

Lemma Forall_message_of (P : event → Prop) a c t :
  (∀ msg, P (Success msg)) → P Balloons → (∀ msg, P (Error msg)) →
  (∀ msg, P (Warning msg)) →
  Forall P (message_of a c t).
Proof. intros. unfold message_of. repeat case_match; repeat constructor; auto. Qed.

Lemma user_message_run s :
  ready s →
  user_message s =
  Outcome (message_of (truthy (attr "authenticated" s)) (truthy (attr "callback" s))
             (truthy (attr "user_access_token" s))) s (Ok tt).
Proof.
  intros (Ht & Ha & _ & Hc). unfold user_message.
  rewrite (bind_silent _ _ _ _ _
             (and_silent _ _ _ _ _ (read_attr truthy _ _ Ha) (read_attr truthy _ _ Hc))).
  unfold message_of.
  destruct (truthy (attr "authenticated" s)) eqn:Ea; cbn [andb].
  - destruct (truthy (attr "callback" s)) eqn:Ec; [reflexivity|].
    rewrite (bind_silent _ _ _ _ _ (read_attr truthy _ _ Ha)), Ea. reflexivity.
  - rewrite (bind_silent _ _ _ _ _ (read_attr truthy _ _ Ha)), Ea.
    rewrite (bind_silent _ _ _ _ _
               (and_silent _ _ _ _ _ (read_attr truthy _ _ Ht)
                  (read_attr (negb ∘ truthy) _ _ Hc))).
    cbn [compose].
    destruct (truthy (attr "user_access_token" s)), (truthy (attr "callback" s)) eqn:Ec;
      cbn [andb negb];
      try reflexivity;
      rewrite (bind_silent _ _ _ _ _ (read_attr (negb ∘ truthy) _ _ Hc)); cbn [compose];
      rewrite Ec; reflexivity.
Qed.

(** ** Risk data client *)

Lemma get_risk_run w token url s :
  get_risk w token url s = Outcome [RiskGet token url] s (slot_of (risk_api w token url)).
Proof.
  unfold get_risk, slot_of, scale, mbind, M_bind, emit, lift, mret, M_ret, getitem.
  cbn. destruct (risk_api w token url) as [[[d|]]|e]; cbn; try reflexivity.
  destruct (d !! "USD"); reflexivity.
Qed.

Lemma preserves_get_risk w token url : preserves (get_risk w token url).
Proof. intros s. by rewrite get_risk_run. Qed.

Lemma emits_get_risk (P : event → Prop) w token url :
  P (RiskGet token url) → emits P (get_risk w token url).
Proof. intros H s. rewrite get_risk_run. cbn. by repeat constructor. Qed.

Lemma gather_get_risk w token base_url names s :
  let o := gather (map (λ name, get_risk w token (base_url +:+ name)) names) s in
  out_state o = s
  ∧ out_events o = map (λ name, RiskGet token (base_url +:+ name)) names
  ∧ (Forall (λ n, is_ok (slot_of (risk_api w token (base_url +:+ n))) = true) names →
     ∃ charts, out_result o = Ok charts
               ∧ map Ok charts = map (λ n, slot_of (risk_api w token (base_url +:+ n))) names)
  ∧ (Exists (λ n, is_ok (slot_of (risk_api w token (base_url +:+ n))) = false) names →
     is_ok (out_result o) = false).
Proof.
  induction names as [|n names IH]; cbn.
  - split; [done|]. split; [done|]. split; [by eauto|]. intros H. inversion H.
  - destruct IH as (IHs & IHe & IHok & IHbad).
    rewrite get_risk_run. cbn. rewrite IHs, IHe.
    split; [done|]. split; [done|]. split.
    + intros H. apply Forall_cons in H as [Hn Hrest].
      destruct (IHok Hrest) as (charts & -> & Hmap).
      destruct (slot_of (risk_api w token (base_url +:+ n))) as [x|]; [|discriminate].
      exists (x :: charts). cbn. by rewrite Hmap.
    + intros H. apply Exists_cons in H as [Hn | Hrest].
      * destruct (slot_of (risk_api w token (base_url +:+ n))); [discriminate | reflexivity].
      * specialize (IHbad Hrest).
        destruct (slot_of (risk_api w token (base_url +:+ n))); [|reflexivity].
        destruct (out_result _); [discriminate | reflexivity].
Qed.

Lemma get_metrics_with_secrets w names s token base_url :
  secrets w !! "TOKEN" = Some token → secrets w !! "URL" = Some base_url →
  let o := gather (map (λ name, get_risk w token (base_url +:+ name)) names) s in
  get_metrics w names s =
  Outcome (out_events o) s
    (Ok (match out_result o with Ok charts => charts | Raise _ => [] end)).
Proof.
  intros Ht Hu o. unfold get_metrics, try_except.
  rewrite !bind_pure. unfold getitem. rewrite Ht. cbv beta iota.
  rewrite !bind_pure. rewrite Hu. cbv beta iota. rewrite !bind_mret. fold o.
  destruct (gather_get_risk w token base_url names s) as (Hs & _). fold o in Hs.
  destruct (out_result o) eqn:E; cbn.
  - transitivity (Outcome (out_events o) (out_state o) (out_result o));
      [reflexivity | by rewrite Hs, E].
  - by rewrite app_nil_r, Hs.
Qed.

Lemma preserves_get_metrics w names : preserves (get_metrics w names).
Proof.
  unfold get_metrics. apply preserves_try_except; [|intros; apply preserves_mret].
  apply preserves_bind; [apply preserves_lift|]. intros token.
  apply preserves_bind; [apply preserves_lift|]. intros base_url.
  apply preserves_bind; [|intros; apply preserves_mret].
  apply preserves_gather, Forall_map, Forall_true. intros name.
  apply preserves_get_risk.
Qed.

Lemma emits_get_metrics (P : event → Prop) w names :
  (∀ token url, P (RiskGet token url)) → emits P (get_metrics w names).
Proof.
  intros HP. unfold get_metrics. apply emits_try_except; [|intros; apply emits_mret].
  apply emits_bind; [apply emits_lift|]. intros token.
  apply emits_bind; [apply emits_lift|]. intros base_url.
  apply emits_bind; [|intros; apply emits_mret].
  apply emits_gather, Forall_map, Forall_true. intros name.
  apply emits_get_risk, HP.
Qed.

Lemma preserves_get_price_data w names : preserves (get_price_data w names).
Proof. unfold get_price_data. preserve. Qed.

Lemma emits_get_price_data (P : event → Prop) w names :
  (∀ ids, P (PriceGet ids)) → emits P (get_price_data w names).
Proof.
  intros HP. unfold get_price_data.
  apply emits_bind; [apply emits_emit, HP | intros; apply emits_lift].
Qed.

(** ** Aggregator *)

Lemma foldl_max_ge (l : list nat) (a : nat) :
  a ≤ foldl Nat.max a l ∧ Forall (λ x, x ≤ foldl Nat.max a l) l.
Proof.
  revert a. induction l as [|x l IH]; intros a; cbn.
  - split; [lia | constructor].
  - destruct (IH (Nat.max a x)) as [H1 H2]. split; [lia|].
    constructor; [lia | exact H2].
Qed.

Lemma foldl_max_in (l : list nat) (a : nat) : foldl Nat.max a l ∈ a :: l.
Proof.
  revert a. induction l as [|x l IH]; intros a; cbn.
  - left.
  - specialize (IH (Nat.max a x)).
    apply elem_of_cons in IH as [E|IH].
    + rewrite E. destruct (Nat.max_spec a x) as [[_ ->]|[_ ->]].
      * right. left.
      * left.
    + right. right. exact IH.
Qed.

Lemma py_max_spec (l : list nat) (k : nat) :
  py_max l = Ok k ↔ k ∈ l ∧ Forall (λ x, x ≤ k) l.
Proof.
  destruct l as [|a l]; cbn.
  - split; [discriminate | intros [H _]; inversion H].
  - split.
    + intros [= <-]. split; [apply foldl_max_in|].
      destruct (foldl_max_ge l a). by constructor.
    + intros [Hin Hle]. f_equal.
      pose proof (foldl_max_in l a) as Hm.
      destruct (foldl_max_ge l a) as [H1 H2].
      rewrite Forall_forall in Hle. specialize (Hle _ Hm).
      assert (k ≤ foldl Nat.max a l); [|lia].
      apply elem_of_cons in Hin as [->|Hin]; [done|].
      rewrite Forall_forall in H2. by apply H2.
Qed.

Lemma elem_of_selected (df : DataFrame) usd (i : nat) :
  i ∈ selected df usd ↔ ∃ row, df !! i = Some row ∧ (row.1 <=? usd)%float = true.
Proof.
  unfold selected. rewrite list_elem_of_In, in_map_iff. split.
  - intros ([j row] & <- & [Hin Hp]%filter_In).
    apply list_elem_of_In, elem_of_lookup_imap in Hin as (j' & row' & [= -> ->] & Hl).
    eauto.
  - intros (row & Hl & Hp). exists (i, row). split; [done|].
    apply filter_In. split; [|done].
    apply list_elem_of_In, elem_of_lookup_imap. eauto.
Qed.

(** The matched index is the last row whose price is at most the quote. *)
Lemma matched_index_spec (df : DataFrame) usd (k : nat) :
  matched_index df usd = Ok k ↔
  (∃ row, df !! k = Some row ∧ (row.1 <=? usd)%float = true)
  ∧ ∀ j row, k < j → df !! j = Some row → (row.1 <=? usd)%float = false.
Proof.
  unfold matched_index. fold (selected df usd).
  rewrite py_max_spec, elem_of_selected, Forall_forall. split.
  - intros [Hk Hmax]. split; [done|]. intros j row Hj Hl.
    destruct (row.1 <=? usd)%float eqn:E; [|done].
    assert (j ∈ selected df usd) as Hin%Hmax by (apply elem_of_selected; eauto). lia.
  - intros [Hk Hmax]. split; [done|]. intros j (row & Hl & Hp)%elem_of_selected.
    destruct (decide (j ≤ k)); [done|].
    rewrite (Hmax j row) in Hp by (done || lia). discriminate.
Qed.

(** When no price is at most the quote, [max] gets the empty list. *)
Lemma matched_index_below_range (df : DataFrame) usd :
  Forall (λ row : float * float, (row.1 <=? usd)%float = false) df →
  matched_index df usd = Raise ValueError.
Proof.
  intros Hall. unfold matched_index. fold (selected df usd).
  destruct (selected df usd) as [|j l] eqn:E; [done|].
  assert (j ∈ selected df usd) as (row & Hl & Hp)%elem_of_selected by (rewrite E; left).
  rewrite Forall_lookup in Hall. rewrite (Hall _ _ Hl) in Hp. discriminate.
Qed.

Lemma size_quote_nonzero (quote : gmap string float) k v :
  quote !! k = Some v → Nat.eqb (size quote) 0 = false.
Proof.
  intros H. apply Nat.eqb_neq. intros E%map_size_empty_iff. subst.
  by rewrite lookup_empty in H.
Qed.

Lemma length_nonzero {A} (l : list A) i x :
  l !! i = Some x → negb (Nat.eqb (length l) 0) = true.
Proof. destruct l; [by rewrite lookup_nil | done]. Qed.

Lemma preserves_render_coin coins data charts i c :
  preserves (render_coin coins data charts i c).
Proof. unfold render_coin. preserve. Qed.

Lemma emits_render_coin (P : event → Prop) coins data charts i c :
  (∀ ev, ev ≠ CheckUserAccess → (∀ token url, ev ≠ RiskGet token url) → P ev) →
  emits P (render_coin coins data charts i c).
Proof.
  intros HP. unfold render_coin.
  repeat first
    [ apply emits_mret | apply emits_lift | apply emits_getattr
    | apply emits_fmap | apply emits_and
    | apply emits_emit; apply HP; done
    | apply emits_bind; [|intros ?]
    | case_match ].
Qed.

(** Without charts the block of a coin is a header and a metric at most. *)
Lemma render_coin_no_charts coins data i c :
  emits (λ ev, risk_event ev = false) (render_coin coins data [] i c).
Proof.
  unfold render_coin.
  apply emits_bind; [apply emits_lift|]. intros quote.
  case_match; [apply emits_mret|].
  apply emits_bind; [apply emits_lift|]. intros entry.
  apply emits_bind; [by apply emits_emit|]. intros _.
  apply emits_bind; [apply emits_lift|]. intros usd.
  apply emits_bind; [apply emits_lift|]. intros change.
  apply emits_bind; [by apply emits_emit|]. intros _.
  intros s. cbn. repeat constructor.
Qed.


(** The block of a coin whose prices are all above the quote: the header
    and the metric are on screen when [max] raises. *)
Lemma render_coin_below_range coins data charts i c s quote entry usd change df v :
  data !! c = Some quote →
  quote !! "usd" = Some usd → quote !! "usd_24h_change" = Some change →
  coins !! i = Some entry →
  charts !! i = Some (Some df) →
  s !! "authenticated" = Some v → truthy v = true →
  Forall (λ row : float * float, (row.1 <=? usd)%float = false) df →
  render_coin coins data charts i c s =
  Outcome [Header (coin_name entry); Metric usd change] s (Raise ValueError).
Proof.
  intros Hq Hu Hc He Hch Ha Hv Hall. unfold render_coin.
  eapply run_lift; [by apply getitem_some|].
  rewrite (size_quote_nonzero _ _ _ Hu).
  eapply run_lift; [by apply list_item_some|].
  apply run_emit.
  eapply run_lift; [by apply getitem_some|].
  eapply run_lift; [by apply getitem_some|].
  apply run_emit.
  pose proof (matched_index_below_range df usd Hall) as Hi.
  unfold and_, fmap, M_fmap, mbind, M_bind, mret, M_ret, lift, getattr, emit, list_item.
  rewrite (length_nonzero _ _ _ Hch), Hch. cbn. rewrite Ha. cbn. rewrite Hv. cbn.
  rewrite Hi. cbn. reflexivity.
Qed.

(** A coin whose entry in the price data is an empty object is skipped. *)
Lemma render_coin_skips coins data charts i c s quote :
  data !! c = Some quote → size quote = 0 →
  render_coin coins data charts i c s = Outcome [] s (Ok tt).
Proof.
  intros Hq Hs. unfold render_coin.
  eapply run_lift; [by apply getitem_some|]. rewrite Hs. reflexivity.
Qed.

(** A coin with no entry in the price data raises [KeyError]. *)
Lemma render_coin_absent coins data charts i c s :
  data !! c = None →
  render_coin coins data charts i c s = Outcome [] s (Raise (KeyError c)).
Proof.
  intros Hq. unfold render_coin. rewrite bind_pure. unfold getitem. by rewrite Hq.
Qed.

(** ** Token codec and session state machine *)

Section Session.

Context (jwt_decode : string → string → result (gmap string jval)).

(** [check_user_access] on a session that holds a token, with the
    signing key configured: the outcome by the stages of the check. *)
Lemma check_user_access_token w now s t key :
  s !! "user_access_token" = Some (VStr t) →
  secrets w !! "SECRET_KEY" = Some key →
  check_user_access jwt_decode w now s =
  match jwt_decode t key with
  | Ok p =>
      match p !! "exp" with
      | Some x =>
          match py_int now with
          | Ok n =>
              match py_ge x n with
              | Ok true => Outcome [CheckUserAccess] s (Ok true)
              | Ok false =>
                  Outcome [CheckUserAccess] (<["user_access_token" := VNone]> s) (Ok false)
              | Raise _ => Outcome [CheckUserAccess] s (Ok false)
              end
          | Raise _ => Outcome [CheckUserAccess] s (Ok false)
          end
      | None => Outcome [CheckUserAccess] s (Ok false)
      end
  | Raise _ => Outcome [CheckUserAccess] s (Ok false)
  end.
Proof.
  intros Ht Hk.
  cbv [check_user_access mbind M_bind try_except emit lift getattr setattr mret M_ret].
  cbn [out_events out_state out_result app]. rewrite Ht. cbn. unfold getitem. rewrite Hk. cbn.
  destruct (jwt_decode t key) as [p|e]; cbn; [|reflexivity].
  destruct (p !! "exp") as [x|]; cbn; [|reflexivity].
  destruct (py_int now) as [n|]; cbn; [|reflexivity].
  destruct (py_ge x n) as [[]|]; cbn; reflexivity.
Qed.

Ltac refused s' :=
  exists false, s'; split; [reflexivity | split; [auto | discriminate]].

(** [check_user_access] never raises; it says [True] only after a
    successful decode with an expiry that is not in the past, and then
    leaves the session alone; it changes the session only to clear the
    token. *)
Lemma check_user_access_sound w now s :
  ∃ b s', check_user_access jwt_decode w now s = Outcome [CheckUserAccess] s' (Ok b)
    ∧ (s' = s ∨ (s' = <["user_access_token" := VNone]> s ∧ b = false))
    ∧ (b = true → s' = s ∧ ∃ t key p x n,
         s !! "user_access_token" = Some (VStr t) ∧ secrets w !! "SECRET_KEY" = Some key
         ∧ jwt_decode t key = Ok p ∧ p !! "exp" = Some x ∧ py_int now = Ok n
         ∧ py_ge x n = Ok true).
Proof.
  cbv [check_user_access mbind M_bind try_except emit lift getattr setattr mret M_ret].
  cbn [out_events out_state out_result app].
  destruct (s !! "user_access_token") as [tok|]; cbn; [|refused s].
  unfold getitem. destruct (secrets w !! "SECRET_KEY") as [key|]; cbn; [|refused s].
  destruct tok as [|?|t]; cbn; [refused s | refused s |].
  destruct (jwt_decode t key) as [p|e] eqn:Ed; cbn; [|refused s].
  destruct (p !! "exp") as [x|] eqn:Ex; cbn; [|refused s].
  destruct (py_int now) as [n|] eqn:En; cbn; [|refused s].
  destruct (py_ge x n) as [[]|] eqn:Ec; cbn;
    [|refused (<["user_access_token" := VNone]> s)|refused s].
  exists true, s. split; [done|]. split; [by left|]. intros _. split; [done|].
  by exists t, key, p, x, n.
Qed.

Lemma check_user_access_ready w now s :
  ready s → ready (out_state (check_user_access jwt_decode w now s)).
Proof.
  intros Hs. destruct (check_user_access_sound w now s) as (b & s' & -> & [->|[-> _]] & _); cbn.
  - done.
  - by apply ready_insert.
Qed.

Lemma validated_ready w now s : ready s → ready (validated jwt_decode w now s).
Proof.
  intros Hs. unfold validated. destruct (needs_validation s); [|done].
  apply ready_insert, check_user_access_ready, Hs.
Qed.

Lemma validated_attr name w now s :
  name ≠ "user_access_token" → name ≠ "authenticated" →
  attr name (validated jwt_decode w now s) = attr name s.
Proof.
  intros H1 H2. unfold validated. destruct (needs_validation s); [|done].
  rewrite attr_insert_ne by done.
  destruct (check_user_access_sound w now s) as (b & s' & -> & [->|[-> _]] & _); cbn; [done|].
  by rewrite attr_insert_ne.
Qed.

(** One pass of [update_state], in closed form. *)
Lemma update_state_run w now kwargs st :
  let s0 := entry_state kwargs st in
  let s1 := validated jwt_decode w now s0 in
  update_state jwt_decode w now kwargs st =
  Outcome
    ((if needs_validation s0 then [CheckUserAccess] else []) ++
     (if truthy (attr "button_pressed" s0)
      then message_of (truthy (attr "authenticated" s1)) (truthy (attr "callback" s0))
             (truthy (attr "user_access_token" s1))
      else []))
    (<["callback" := VBool false]> (<["button_pressed" := VBool false]> s1))
    (Ok tt).
Proof.
  intros s0 s1. unfold update_state.
  rewrite (bind_silent _ _ st (kwargs ∪ st) tt) by reflexivity.
  do 4 (erewrite bind_silent by apply setdefault_run).
  fold (entry_state kwargs st). fold s0.
  pose proof (entry_state_ready kwargs st) as Hr. fold s0 in Hr.
  destruct Hr as (Ht & Ha & Hb & Hc).
  erewrite bind_silent; cycle 1.
  { apply or_silent; apply and_silent; apply read_attr; assumption. }
  cbn [compose]. fold (needs_validation s0).
  assert (Hr1 : ready s1) by (apply validated_ready; repeat split; assumption).
  assert (Hb1 : attr "button_pressed" s1 = attr "button_pressed" s0)
    by (by apply validated_attr).
  assert (Hc1 : attr "callback" s1 = attr "callback" s0)
    by (by apply validated_attr).
  assert (Hstep :
    ((if needs_validation s0
      then check_user_access jwt_decode w now ≫= λ b, setattr "authenticated" (VBool b)
      else mret tt) : M unit) s0 =
    Outcome (if needs_validation s0 then [CheckUserAccess] else []) s1 (Ok tt)).
  { unfold s1, validated. destruct (needs_validation s0); [|reflexivity].
    destruct (check_user_access_sound w now s0) as (b & s' & E & _).
    unfold mbind, M_bind. rewrite E. reflexivity. }
  rewrite (bind_ok _ _ _ tt) by (rewrite Hstep; reflexivity).
  rewrite Hstep. cbn [out_events out_state out_result].
  destruct Hr1 as (Ht1 & Ha1 & Hb1' & Hc1').
  rewrite (bind_silent _ _ _ _ _ (read_attr truthy _ _ Hb1')).
  rewrite Hb1.
  destruct (truthy (attr "button_pressed" s0)).
  - rewrite (bind_ok _ _ _ tt)
      by (rewrite user_message_run by (repeat split; assumption); reflexivity).
    rewrite user_message_run by (repeat split; assumption).
    cbn [out_events out_state out_result]. rewrite Hc1.
    unfold mbind, M_bind, setattr. cbn. rewrite app_nil_r. reflexivity.
  - unfold mbind, M_bind, setattr, mret, M_ret. cbn. reflexivity.
Qed.

Lemma emits_update_state (P : event → Prop) w now kwargs :
  P CheckUserAccess →
  (∀ msg, P (Success msg)) → P Balloons → (∀ msg, P (Error msg)) →
  (∀ msg, P (Warning msg)) →
  emits P (update_state jwt_decode w now kwargs).
Proof.
  intros ? ? ? ? ? s. rewrite update_state_run. cbn. apply Forall_app. split.
  - case_match; repeat constructor; done.
  - case_match; [by apply Forall_message_of | constructor].
Qed.

(** A settled session goes through [update_state] without a check. *)
Lemma keeps_update_state w now :
  keeps settled (λ ev, ev ≠ CheckUserAccess) (update_state jwt_decode w now ∅).
Proof.
  intros s [Ha Hb]. rewrite update_state_run. cbn.
  assert (Hn : needs_validation (entry_state ∅ s) = false).
  { apply not_true_is_false. rewrite needs_validation_iff, !truthy_attr_entry_state.
    rewrite Ha, Hb. intuition congruence. }
  unfold validated. rewrite Hn, truthy_attr_entry_state, Hb. cbn. split; [|constructor].
  split.
  - rewrite !attr_insert_ne by done. by rewrite truthy_attr_entry_state.
  - by rewrite attr_insert_ne, attr_insert_eq.
Qed.

Lemma keeps_main w coins now_first now_last :
  keeps settled (λ ev, ev ≠ CheckUserAccess)
    (main jwt_decode w coins now_first now_last false).
Proof.
  unfold main.
  apply keeps_bind; [apply keeps_update_state|]. intros _.
  apply keeps_bind.
  { apply keeps_frame; [apply preserves_fmap, preserves_getattr
                       | apply emits_fmap, emits_getattr]. }
  intros authenticated. apply keeps_bind.
  { apply keeps_frame; destruct authenticated;
      first [ apply preserves_get_metrics | apply preserves_mret
            | by apply emits_get_metrics | apply emits_mret ]. }
  intros charts. apply keeps_bind.
  { apply keeps_frame; [apply preserves_get_price_data | by apply emits_get_price_data]. }
  intros data. apply keeps_bind.
  { apply keeps_frame.
    - apply preserves_for_enumerate. intros. apply preserves_render_coin.
    - apply emits_for_enumerate. intros. apply emits_render_coin. done. }
  intros _. apply keeps_bind; [|intros _; apply keeps_update_state].
  intros s [Ha Hb]. cbn. split; [|constructor]. split.
  - by rewrite attr_insert_ne.
  - by rewrite attr_insert_eq.
Qed.

Lemma renders_settled runs s :
  settled s →
  settled (renders jwt_decode runs s).2
  ∧ Forall (λ ev, ev ≠ CheckUserAccess) (renders jwt_decode runs s).1.
Proof.
  revert s. induction runs as [|r runs IH]; intros s Hs; cbn.
  - split; [done | constructor].
  - destruct (keeps_main (run_world r) (run_coins r) (run_now_first r) (run_now_last r) s Hs)
      as [H1 H2].
    destruct (IH _ H1) as [H3 H4]. split; [done | by apply Forall_app].
Qed.

End Session.

(** * The claims *)

(** ** C1: the risk data client *)

(** C1, as the code has it. With the bearer token and the base URL
    configured, the slot of an asset is what [get_risk] returns for it:
    null when the envelope has no "data" member, the curve with its risk
    column multiplied by 100 when it has one, and an exception otherwise.
    When no fetch raises, [get_metrics] returns one slot per asset id, in
    input order. When some fetch raises, [get_metrics] returns the empty
    list: the failure of one asset drops the slots of all. *)
Theorem get_metrics_all_or_nothing w names token base_url s :
  secrets w !! "TOKEN" = Some token →
  secrets w !! "URL" = Some base_url →
  let fetch := λ name, out_result (get_risk w token (base_url +:+ name) s) in
  let charts := out_result (get_metrics w names s) in
  (∀ name, fetch name = slot_of (risk_api w token (base_url +:+ name)))
  ∧ (Forall (λ name, is_ok (fetch name) = true) names →
     ∃ slots, charts = Ok slots ∧ length slots = length names
              ∧ map Ok slots = map fetch names)
  ∧ (Exists (λ name, is_ok (fetch name) = false) names → charts = Ok []).
Proof.
  intros Ht Hu fetch charts.
  assert (Hfetch : ∀ name, fetch name = slot_of (risk_api w token (base_url +:+ name))).
  { intros name. unfold fetch. by rewrite get_risk_run. }
  split; [exact Hfetch|].
  unfold charts. rewrite (get_metrics_with_secrets _ _ _ _ _ Ht Hu). cbn.
  destruct (gather_get_risk w token base_url names s) as (_ & _ & Hok & Hbad).
  split.
  - intros Hall.
    destruct Hok as (slots & -> & Hmap).
    { eapply Forall_impl; [exact Hall|]. intros name. cbn. by rewrite Hfetch. }
    exists slots. split; [done|]. split.
    + pose proof (f_equal length Hmap) as Hlen.
      by rewrite !List.length_map in Hlen.
    + rewrite Hmap. apply map_ext. intros name. by rewrite Hfetch.
  - intros Hsome.
    set (o := gather (map (λ name, get_risk w token (base_url +:+ name)) names) s) in *.
    assert (Hraise : is_ok (out_result o) = false).
    { apply Hbad. eapply Exists_impl; [exact Hsome|]. intros name. cbn. by rewrite Hfetch. }
    destruct (out_result o); [discriminate Hraise | reflexivity].
Qed.

(** The witness of C1: bitcoin has a curve and dogecoin has no "data";
    with ethereum, whose fetch raises, the list is empty. *)
Lemma get_metrics_all_or_nothing_witness :
  out_result (get_metrics Fixture.the_world ["bitcoin"; "dogecoin"] ∅)
  = Ok [Some [(40000, 10); (60000, 30)]%float; None]
  ∧ out_result (get_metrics Fixture.the_world ["bitcoin"; "ethereum"] ∅) = Ok [].
Proof.
  split.
  - destruct (get_metrics_all_or_nothing Fixture.the_world ["bitcoin"; "dogecoin"]
                "bearer" "https://risk.example/" ∅ eq_refl eq_refl) as (_ & Hok & _).
    destruct Hok as (slots & -> & _ & Hmap).
    { repeat constructor. }
    f_equal. vm_compute in Hmap.
    destruct slots as [|a [|b [|]]]; try discriminate. by injection Hmap as -> ->.
  - destruct (get_metrics_all_or_nothing Fixture.the_world ["bitcoin"; "ethereum"]
                "bearer" "https://risk.example/" ∅ eq_refl eq_refl) as (_ & _ & Hbad).
    apply Hbad. right. left. reflexivity.
Defined.

(** The counterexample to C1 as stated: for bitcoin, ethereum and solana,
    where only the fetch of ethereum raises, the result is the empty list
    and not the list of three slots. *)
Lemma get_metrics_isolation_counterexample :
  out_result (get_risk Fixture.the_world "bearer" "https://risk.example/bitcoin" ∅)
  = Ok (Some [(40000, 10); (60000, 30)]%float)
  ∧ out_result (get_risk Fixture.the_world "bearer" "https://risk.example/ethereum" ∅)
    = Raise ClientError
  ∧ out_result (get_risk Fixture.the_world "bearer" "https://risk.example/solana" ∅)
    = Ok (Some [(200, 50); (300, 75)]%float)
  ∧ out_result (get_metrics Fixture.the_world ["bitcoin"; "ethereum"; "solana"] ∅) = Ok []
  ∧ length ([] : list (option DataFrame)) ≠ 3.
Proof. vm_compute. repeat split; discriminate. Qed.

(** ** C2: token validation *)



(** ** C3: a token that fails validation *)

(** C3, as the code has it. Take a pass of [update_state] that validates
    the stored token (a token is stored, and the session is not
    authenticated or the button was pressed) and in which the validation
    fails. Then the session is left unauthenticated. The stored token is
    cleared to [None] when it decoded and its expiry is in the past; it
    is kept as it was when the decode raised or the payload has no
    "exp". *)
Theorem update_state_rejected_token
    (jwt_decode : string → string → result (gmap string jval)) w now kwargs st :
  let s0 := entry_state kwargs st in
  let s' := out_state (update_state jwt_decode w now kwargs st) in
  needs_validation s0 = true →
  out_result (check_user_access jwt_decode w now s0) = Ok false →
  s' !! "authenticated" = Some (VBool false)
  ∧ (∀ t key,
       s0 !! "user_access_token" = Some (VStr t) → secrets w !! "SECRET_KEY" = Some key →
       (∀ p x n, jwt_decode t key = Ok p → p !! "exp" = Some x → py_int now = Ok n →
                 py_ge x n = Ok false →
                 s' !! "user_access_token" = Some VNone)
       ∧ (∀ e, jwt_decode t key = Raise e →
               s' !! "user_access_token" = Some (VStr t))
       ∧ (∀ p, jwt_decode t key = Ok p → p !! "exp" = None →
               s' !! "user_access_token" = Some (VStr t))).
Proof.
  intros s0 s' Hneeds Hfalse. unfold s'. rewrite update_state_run. fold s0. cbn.
  unfold validated. rewrite Hneeds, Hfalse.
  rewrite !lookup_insert_ne by done.
  split.
  { apply lookup_insert_eq. }
  intros t key Ht Hk. rewrite !lookup_insert_ne by done.
  rewrite (check_user_access_token jwt_decode w now s0 t key Ht Hk).
  split; [|split].
  - intros p x n -> -> -> ->. cbn. by rewrite lookup_insert_eq.
  - by intros e ->.
  - by intros p -> ->.
Qed.

(** The witness of C3, on the stub decoder: the token that was good
    until 2000 is cleared at 3000; a token that does not decode is kept. *)
Lemma update_state_rejected_token_witness :
  (let s' := out_state (update_state Fixture.jwt_decode Fixture.the_world 3000.5 ∅
                          {["user_access_token" := VStr "until-2000"]}) in
   s' !! "authenticated" = Some (VBool false) ∧ s' !! "user_access_token" = Some VNone)
  ∧ (let s' := out_state (update_state Fixture.jwt_decode Fixture.the_world 3000.5 ∅
                            Fixture.with_garbage) in
     s' !! "authenticated" = Some (VBool false)
     ∧ s' !! "user_access_token" = Some (VStr "garbage")).
Proof.
  split.
  - destruct (update_state_rejected_token Fixture.jwt_decode Fixture.the_world 3000.5 ∅
                {["user_access_token" := VStr "until-2000"]}) as [Ha Ht];
      [vm_compute; reflexivity | vm_compute; reflexivity |].
    split; [exact Ha|].
    destruct (Ht "until-2000" "s3cret" eq_refl eq_refl) as (Hexpired & _).
    exact (Hexpired {["exp" := JInt 2000]} (JInt 2000) 3000%Z
             eq_refl eq_refl eq_refl eq_refl).
  - destruct (update_state_rejected_token Fixture.jwt_decode Fixture.the_world 3000.5 ∅
                Fixture.with_garbage) as [Ha Ht];
      [vm_compute; reflexivity | vm_compute; reflexivity |].
    split; [exact Ha|].
    destruct (Ht "garbage" "s3cret" eq_refl eq_refl) as (_ & Hraise & _).
    exact (Hraise JwtError eq_refl).
Defined.

(** The counterexample to C3 as stated: a session holds a token that no
    key verifies; the validation fails and the session is left
    unauthenticated, but the token is still stored. *)
Lemma rejected_token_is_kept_counterexample :
  needs_validation (entry_state ∅ Fixture.with_garbage) = true
  ∧ out_result (check_user_access Fixture.jwt_decode Fixture.the_world 1000.5
                  (entry_state ∅ Fixture.with_garbage)) = Ok false
  ∧ out_state (update_state Fixture.jwt_decode Fixture.the_world 1000.5 ∅
                 Fixture.with_garbage) !! "authenticated" = Some (VBool false)
  ∧ out_state (update_state Fixture.jwt_decode Fixture.the_world 1000.5 ∅
                 Fixture.with_garbage) !! "user_access_token" = Some (VStr "garbage")
  ∧ VStr "garbage" ≠ VNone.
Proof. vm_compute. repeat split; discriminate. Qed.

(** ** C4: a quote below the whole curve *)

(** C4 asks that the run survives a curve whose prices are all above the
    quote. In the code it does not: solana is quoted at 150 and its curve
    starts at 200, [max] gets the empty list and [ValueError] ends the
    run, after the header and the metric of the coin were rendered and
    before the second [update_state]. *)
Theorem main_aborts_below_range :
  main Fixture.jwt_decode Fixture.the_world [Fixture.solana] 1000.5 1000.5 false
    Fixture.logged_in
  = Outcome
      [RiskGet "bearer" "https://risk.example/solana"; PriceGet "solana";
       Header "solana"; Metric 150 0.5]
      (<["callback" := VBool false]>
         (<["button_pressed" := VBool false]> (entry_state ∅ Fixture.logged_in)))
      (Raise ValueError).
Proof. vm_compute. reflexivity. Qed.

(** ** C5: the unauthenticated view *)

(** C5. When the session is not authenticated after the [update_state]
    that opens the run, the run sends no request to the risk provider and
    shows no risk figure and no chart, for any catalog, any provider
    answers and also when the run raises. *)
Theorem main_unauthenticated_no_risk
    (jwt_decode : string → string → result (gmap string jval))
    w coins now_first now_last button st :
  truthy (attr "authenticated"
            (out_state (update_state jwt_decode w now_first ∅ st))) = false →
  Forall (λ ev, risk_event ev = false)
    (out_events (main jwt_decode w coins now_first now_last button st)).
Proof.
  intros Hauth. unfold main.
  rewrite (bind_ok _ _ _ tt) by (by rewrite update_state_run).
  cbn [out_events]. apply Forall_app. split.
  { by apply emits_update_state. }
  set (s1 := out_state (update_state jwt_decode w now_first ∅ st)) in *.
  assert (Hr : has_attr "authenticated" s1).
  { unfold s1. rewrite update_state_run. cbn.
    do 2 apply has_attr_insert. apply validated_ready, entry_state_ready. }
  rewrite (bind_silent _ _ _ _ _ (read_attr truthy _ _ Hr)), Hauth.
  rewrite (bind_silent _ _ s1 s1 []) by reflexivity.
  apply emits_bind; [by apply emits_get_price_data|]. intros data.
  apply emits_bind; [apply emits_for_enumerate; intros; apply render_coin_no_charts|].
  intros _. apply emits_bind; [intros s; constructor|]. intros _.
  by apply emits_update_state.
Qed.

(** The witness of C5: the first run of a fresh session over bitcoin and
    ethereum shows two headers and two metrics and asks the price
    provider only. *)
Lemma main_unauthenticated_no_risk_witness :
  truthy (attr "authenticated"
            (out_state (update_state Fixture.jwt_decode Fixture.the_world 1000.5 ∅ ∅)))
  = false
  ∧ Forall (λ ev, risk_event ev = false)
      (out_events (main Fixture.jwt_decode Fixture.the_world
                     [Fixture.bitcoin; Fixture.ethereum] 1000.5 1000.5 false ∅))
  ∧ out_events (main Fixture.jwt_decode Fixture.the_world
                  [Fixture.bitcoin; Fixture.ethereum] 1000.5 1000.5 false ∅)
    = [PriceGet "bitcoin,ethereum"; Header "bitcoin"; Metric 50000 2.1;
       Header "ethereum"; Metric 3000 (-1)]%float.
Proof.
  split; [vm_compute; reflexivity|]. split; [|vm_compute; reflexivity].
  apply (main_unauthenticated_no_risk Fixture.jwt_decode Fixture.the_world
           [Fixture.bitcoin; Fixture.ethereum] 1000.5%float 1000.5%float false ∅).
  vm_compute. reflexivity.
Defined.

(** ** C6: the matched risk point *)




(** ** C7: a coin without a quote *)

(** C7 asks that a coin the price response does not contain is skipped
    without failing the run. In the code an entry that is present and
    empty is skipped ([render_coin_skips]), but a coin with no entry
    raises: dogecoin is not in the response, [api_data[coin]] raises
    [KeyError] and the run ends before anything is rendered. *)
Theorem main_aborts_on_missing_quote :
  main Fixture.jwt_decode Fixture.the_world [Fixture.dogecoin; Fixture.bitcoin]
    1000.5 1000.5 false ∅
  = Outcome [PriceGet "dogecoin,bitcoin"]
      (<["callback" := VBool false]> (<["button_pressed" := VBool false]> (entry_state ∅ ∅)))
      (Raise (KeyError "dogecoin")).
Proof. vm_compute. reflexivity. Qed.

(** ** C8: the status message *)

(** C8, as the code has it. A pass of [update_state] shows a message only
    when [button_pressed] is set on entry. Then, with the session as the
    pass leaves it: "Successfully Authenticated" (and balloons) when the
    session is authenticated and [callback] is set, which is the pass run
    by the click; nothing when it is authenticated and [callback] is not
    set; nothing when it is not authenticated and [callback] is set;
    "Invalid Token" when it is not authenticated, [callback] is not set
    and a token is still stored; "Please Authenticate" when it is not
    authenticated, [callback] is not set and no token is stored. *)
Theorem update_state_message_table
    (jwt_decode : string → string → result (gmap string jval)) w now kwargs st :
  let s0 := entry_state kwargs st in
  let o := update_state jwt_decode w now kwargs st in
  List.filter is_message (out_events o) =
  match truthy (attr "button_pressed" s0),
        truthy (attr "authenticated" (out_state o)),
        truthy (attr "callback" s0),
        truthy (attr "user_access_token" (out_state o)) with
  | false, _, _, _ => []
  | true, true, true, _ => [Success "Successfully Authenticated"; Balloons]
  | true, true, false, _ => []
  | true, false, true, _ => []
  | true, false, false, true => [Error "Invalid Token"]
  | true, false, false, false => [Warning "Please Authenticate"]
  end.
Proof.
  intros s0 o. unfold o. rewrite update_state_run. fold s0. cbn.
  rewrite !attr_insert_ne by done. rewrite List.filter_app.
  replace (List.filter is_message (if needs_validation s0 then [CheckUserAccess] else []))
    with (@nil event) by (by destruct (needs_validation s0)).
  cbn. unfold message_of.
  destruct (truthy (attr "button_pressed" s0)); [|reflexivity].
  destruct (truthy (attr "authenticated" (validated jwt_decode w now s0))),
    (truthy (attr "callback" s0)),
    (truthy (attr "user_access_token" (validated jwt_decode w now s0))); reflexivity.
Qed.

(** The counterexample to C8 as stated: the first run of a fresh session,
    unauthenticated and with no token ever submitted, shows no message;
    "Please Authenticate" is not among its events. *)
Lemma first_render_shows_no_message_counterexample :
  let o := main Fixture.jwt_decode Fixture.the_world
             [Fixture.bitcoin; Fixture.ethereum] 1000.5 1000.5 false ∅ in
  out_result o = Ok tt
  ∧ attr "user_access_token" (out_state o) = VNone
  ∧ attr "authenticated" (out_state o) = VBool false
  ∧ out_events o = [PriceGet "bitcoin,ethereum"; Header "bitcoin"; Metric 50000 2.1;
                    Header "ethereum"; Metric 3000 (-1)]%float
  ∧ List.filter is_message (out_events o) ≠ [Warning "Please Authenticate"].
Proof. vm_compute. repeat split; discriminate. Qed.

(** A click with a token that does not decode: the pass run by the click
    shows nothing, the run that follows shows "Invalid Token". *)
Example click_with_garbage :
  let clicked := on_click Fixture.jwt_decode Fixture.the_world 1000.5 "garbage" ∅ in
  let rerun := main Fixture.jwt_decode Fixture.the_world [] 1000.5 1000.5 true
                 (out_state clicked) in
  List.filter is_message (out_events clicked) = []
  ∧ List.filter is_message (out_events rerun) = [Error "Invalid Token"].
Proof. vm_compute. split; reflexivity. Qed.

(** A click with a valid token: the pass run by the click shows
    "Successfully Authenticated", the run that follows shows nothing. *)
Example click_with_valid_token :
  let clicked := on_click Fixture.jwt_decode Fixture.the_world 1000.5 "until-2000" ∅ in
  let rerun := main Fixture.jwt_decode Fixture.the_world [] 1000.5 1000.5 true
                 (out_state clicked) in
  List.filter is_message (out_events clicked)
  = [Success "Successfully Authenticated"; Balloons]
  ∧ List.filter is_message (out_events rerun) = [].
Proof. vm_compute. split; reflexivity. Qed.

(** A click with an empty input: the run that follows shows "Please
    Authenticate". *)
Example click_with_empty_input :
  let clicked := on_click Fixture.jwt_decode Fixture.the_world 1000.5 "" ∅ in
  let rerun := main Fixture.jwt_decode Fixture.the_world [] 1000.5 1000.5 true
                 (out_state clicked) in
  List.filter is_message (out_events clicked) = []
  ∧ List.filter is_message (out_events rerun) = [Warning "Please Authenticate"].
Proof. vm_compute. split; reflexivity. Qed.

(** ** C9: an authenticated session is not validated again *)

(** C9. [update_state] calls [check_user_access] exactly when, after the
    keyword arguments and the defaults, a token is stored and the session
    is not authenticated or the button was pressed. Hence over any number
    of runs in which the button is not clicked, whatever the clock, the
    providers and the catalog of each run, and also when a run raises, an
    authenticated session stays authenticated and the token is never
    checked. *)
Theorem authenticated_is_sticky
    (jwt_decode : string → string → result (gmap string jval)) :
  (∀ w now kwargs st,
     CheckUserAccess ∈ out_events (update_state jwt_decode w now kwargs st) ↔
     truthy (attr "user_access_token" (entry_state kwargs st)) = true
     ∧ (truthy (attr "authenticated" (entry_state kwargs st)) = false
        ∨ truthy (attr "button_pressed" (entry_state kwargs st)) = true))
  ∧ (∀ runs s,
       settled s →
       settled (renders jwt_decode runs s).2
       ∧ CheckUserAccess ∉ (renders jwt_decode runs s).1).
Proof.
  split.
  - intros w now kwargs st. rewrite <- needs_validation_iff, update_state_run. cbn.
    rewrite elem_of_app. split.
    + intros [Hin|Hin].
      * destruct (needs_validation (entry_state kwargs st)); [done | inversion Hin].
      * exfalso. destruct (truthy (attr "button_pressed" (entry_state kwargs st)));
          [|inversion Hin].
        eapply (proj1 (Forall_forall (λ ev, ev ≠ CheckUserAccess) _));
          [by apply Forall_message_of | exact Hin | reflexivity].
    + intros ->. left. left.
  - intros runs s Hs. destruct (renders_settled jwt_decode runs s Hs) as [H1 H2].
    split; [exact H1|]. intros Hin.
    by apply (proj1 (Forall_forall _ _) H2 _ Hin).
Qed.

(** The witness of C9: the session authenticated with the token that is
    good until 2000. At 5000 the token no longer validates, and a run
    that raises and one that does not leave the session authenticated. *)
Lemma authenticated_is_sticky_witness :
  let runs := [Run Fixture.the_world [Fixture.dogecoin] 5000.5 5000.5;
               Run Fixture.the_world [Fixture.bitcoin] 6000.5 6000.5] in
  out_result (check_user_access Fixture.jwt_decode Fixture.the_world 5000.5
                Fixture.logged_in) = Ok false
  ∧ settled (renders Fixture.jwt_decode runs Fixture.logged_in).2
  ∧ CheckUserAccess ∉ (renders Fixture.jwt_decode runs Fixture.logged_in).1.
Proof.
  split; [vm_compute; reflexivity|].
  apply (proj2 (authenticated_is_sticky Fixture.jwt_decode)).
  split; vm_compute; reflexivity.
Defined.

(** ** C10: the lifetime of an issued token *)

(** C10. With the signing key configured, [generate_user_access] returns
    the encoding of a payload whose only member is "exp", equal to the
    clock plus 99999999 seconds, and shows "Successfully Created Token";
    nothing but the clock enters the expiry. A token is returned only so:
    without the key the function raises. 99999999 seconds are between
    3.15 and 3.25 years of 365 days. *)
Theorem generate_user_access_expiry
    (jwt_encode : gmap string jval → string → string) w now s :
  (∀ key, secrets w !! "SECRET_KEY" = Some key →
     generate_user_access jwt_encode w now s
     = Outcome [Success "Successfully Created Token"] s
         (Ok (jwt_encode {["exp" := JFloat (now + 99999999)%float]} key)))
  ∧ (∀ token, out_result (generate_user_access jwt_encode w now s) = Ok token →
       ∃ key, secrets w !! "SECRET_KEY" = Some key
              ∧ token = jwt_encode {["exp" := JFloat (now + 99999999)%float]} key)
  ∧ py_int 99999999 = Ok 99999999%Z
  ∧ (315 * (365 * 86400) ≤ 100 * 99999999 < 325 * (365 * 86400))%Z.
Proof.
  split; [|split; [|split]].
  - intros key Hk. unfold generate_user_access. rewrite bind_pure.
    unfold getitem. rewrite Hk. reflexivity.
  - intros token. unfold generate_user_access. rewrite bind_pure. unfold getitem.
    destruct (secrets w !! "SECRET_KEY") as [key|]; [|discriminate].
    cbn. intros [= <-]. by exists key.
  - vm_compute. reflexivity.
  - lia.
Qed.

(** The witness of C10: a token issued at 1000 carries the expiry
    100000999. *)
Lemma generate_user_access_expiry_witness :
  generate_user_access Fixture.jwt_encode Fixture.the_world 1000 ∅
  = Outcome [Success "Successfully Created Token"] ∅
      (Ok (Fixture.jwt_encode {["exp" := JFloat 100000999]} "s3cret")).
Proof.
  exact (proj1 (generate_user_access_expiry Fixture.jwt_encode Fixture.the_world
                  1000%float ∅) "s3cret" eq_refl).
Defined.

(** * Further properties of the code *)

(** ** Stages of a run *)

Lemma get_metrics_no_credentials w names s :
  secrets w !! "TOKEN" = None ∨ secrets w !! "URL" = None →
  get_metrics w names s = Outcome [] s (Ok []).
Proof.
  intros H. unfold get_metrics, try_except.
  rewrite !bind_pure. unfold getitem.
  destruct (secrets w !! "TOKEN") as [token|]; [|reflexivity].
  destruct H as [H|H]; [discriminate|].
  cbv beta iota. rewrite !bind_pure. rewrite H. reflexivity.
Qed.

Lemma get_metrics_total w names s :
  ∃ charts, get_metrics w names s = Outcome (out_events (get_metrics w names s)) s (Ok charts).
Proof.
  destruct (secrets w !! "TOKEN") as [token|] eqn:Et;
    [destruct (secrets w !! "URL") as [base_url|] eqn:Eu|].
  - rewrite (get_metrics_with_secrets _ _ _ _ _ Et Eu). cbn. eauto.
  - rewrite get_metrics_no_credentials by auto. cbn. eauto.
  - rewrite get_metrics_no_credentials by auto. cbn. eauto.
Qed.

Lemma get_price_data_run w names s :
  get_price_data w names s =
  Outcome [PriceGet (String.concat "," names)] s (price_api w (String.concat "," names)).
Proof.
  unfold get_price_data, mbind, M_bind, emit, lift. cbn.
  by destruct (price_api w (String.concat "," names)).
Qed.

Section Stages.

Context (jwt_decode : string → string → result (gmap string jval)).

(** One run of the script, by its stages. *)
Lemma main_run w coins now_first now_last button st :
  let ids := map coin_id coins in
  let o1 := update_state jwt_decode w now_first ∅ st in
  let s1 := out_state o1 in
  let om := if truthy (attr "authenticated" s1) then get_metrics w ids s1
            else Outcome [] s1 (Ok []) in
  let charts := match out_result om with Ok c => c | Raise _ => [] end in
  let request := PriceGet (String.concat "," ids) in
  main jwt_decode w coins now_first now_last button st =
  match price_api w (String.concat "," ids) with
  | Raise e => Outcome (out_events o1 ++ out_events om ++ [request]) s1 (Raise e)
  | Ok data =>
      let ol := for_enumerate 0 ids (render_coin coins data charts) s1 in
      match out_result ol with
      | Raise e =>
          Outcome (out_events o1 ++ out_events om ++ request :: out_events ol) s1 (Raise e)
      | Ok _ =>
          let o2 := update_state jwt_decode w now_last ∅
                      (<["button_pressed" := VBool button]> s1) in
          Outcome (out_events o1 ++ out_events om ++ request :: out_events ol ++ out_events o2)
            (out_state o2) (Ok tt)
      end
  end.
Proof.
  intros ids o1 s1 om charts request. unfold main. fold ids.
  rewrite (bind_ok _ _ _ tt) by (by rewrite update_state_run).
  fold o1. fold s1.
  assert (Hr : has_attr "authenticated" s1).
  { unfold s1, o1. rewrite update_state_run. cbn.
    do 2 apply has_attr_insert. apply validated_ready, entry_state_ready. }
  rewrite (bind_silent _ _ _ _ _ (read_attr truthy _ _ Hr)).
  assert (Hm : ∃ c, om = Outcome (out_events om) s1 (Ok c)).
  { unfold om. destruct (truthy (attr "authenticated" s1)); [apply get_metrics_total|].
    by exists []. }
  destruct Hm as [c Hc].
  assert (Hcharts : charts = c) by (unfold charts; by rewrite Hc).
  assert (Hom : (if truthy (attr "authenticated" s1) then get_metrics w ids else mret [])
                  s1 = om).
  { unfold om. by destruct (truthy (attr "authenticated" s1)). }
  rewrite (bind_ok _ _ _ c) by (by rewrite Hom, Hc).
  rewrite Hom. rewrite Hcharts.
  replace (out_state om) with s1 by (by rewrite Hc).
  rewrite (bind_run (get_price_data w ids)), get_price_data_run. fold request.
  destruct (price_api w (String.concat "," ids)) as [data|e]; [|reflexivity].
  assert (Hl : out_state (for_enumerate 0 ids (render_coin coins data c) s1) = s1).
  { apply preserves_for_enumerate. intros. apply preserves_render_coin. }
  cbn. rewrite bind_run.
  remember (for_enumerate 0 ids (render_coin coins data c) s1) as ol eqn:Hol.
  destruct (out_result ol) as [[]|e]; cbn; rewrite Hl; [|reflexivity].
  f_equal. rewrite (bind_silent _ _ s1 (<["button_pressed" := VBool button]> s1) tt)
    by reflexivity.
  by rewrite update_state_run.
Qed.
End Stages.

(** ** Lookups in the session *)

Lemma filter_none {A} (f : A → bool) (l : list A) :
  Forall (λ x, f x = false) l → List.filter f l = [].
Proof.
  induction 1 as [|x l Hx _ IH]; cbn; [done|]. by rewrite Hx.
Qed.

Lemma with_default_lookup_ne name k v s :
  k ≠ name → with_default k v s !! name = s !! name.
Proof.
  intros Hne. unfold with_default. destruct (s !! k); [done|].
  by rewrite lookup_insert_ne.
Qed.

Lemma with_default_lookup_Some name k v x s :
  s !! name = Some x → with_default k v s !! name = Some x.
Proof.
  intros Hs. unfold with_default. destruct (s !! k) eqn:E; [done|].
  rewrite lookup_insert_ne; [done|]. intros ->. congruence.
Qed.

Lemma entry_state_lookup_other name kwargs st :
  name ∉ session_attributes → entry_state kwargs st !! name = (kwargs ∪ st) !! name.
Proof.
  intros Hn. unfold entry_state.
  rewrite !with_default_lookup_ne; [done|..]; intros E; apply Hn; rewrite <- E;
    unfold session_attributes; set_solver.
Qed.

Lemma entry_state_lookup_kwargs name kwargs st v :
  kwargs !! name = Some v → entry_state kwargs st !! name = Some v.
Proof.
  intros Hk. unfold entry_state. do 4 apply with_default_lookup_Some.
  by apply lookup_union_Some_l.
Qed.

Lemma truthy_attr_entry_state_kwargs name kwargs st :
  kwargs !! name = None →
  truthy (attr name (entry_state kwargs st)) = truthy (attr name st).
Proof.
  intros Hk. unfold entry_state. rewrite !truthy_attr_with_default by done.
  unfold attr. by rewrite lookup_union_r.
Qed.

Section Frame.

Context (jwt_decode : string → string → result (gmap string jval)).

Lemma check_user_access_lookup name w now s :
  name ≠ "user_access_token" →
  out_state (check_user_access jwt_decode w now s) !! name = s !! name.
Proof.
  intros Hn.
  destruct (check_user_access_sound jwt_decode w now s) as (b & s' & -> & [->|[-> _]] & _);
    cbn; [done|]. by rewrite lookup_insert_ne.
Qed.

Lemma validated_lookup name w now s :
  name ≠ "user_access_token" → name ≠ "authenticated" →
  validated jwt_decode w now s !! name = s !! name.
Proof.
  intros H1 H2. unfold validated. destruct (needs_validation s); [|done].
  rewrite lookup_insert_ne by done. by apply check_user_access_lookup.
Qed.

Lemma update_state_flags_reset w now kwargs st :
  out_result (update_state jwt_decode w now kwargs st) = Ok tt
  ∧ flags_reset (out_state (update_state jwt_decode w now kwargs st)).
Proof.
  rewrite update_state_run. cbn. split; [done|]. split; [|split].
  - do 2 apply ready_insert. apply validated_ready, entry_state_ready.
  - rewrite lookup_insert_ne by done. apply lookup_insert_eq.
  - apply lookup_insert_eq.
Qed.

End Frame.

Lemma try_except_raise {A} (m : M A) h s evs s' e :
  m s = Outcome evs s' (Raise e) →
  try_except m h s
  = Outcome (evs ++ out_events (h e s')) (out_state (h e s')) (out_result (h e s')).
Proof. intros H. unfold try_except. rewrite H. reflexivity. Qed.

Lemma getattr_none {B} name (k : value → M B) s :
  s !! name = None → (getattr name ≫= k) s = Outcome [] s (Raise (AttributeError name)).
Proof. intros H. unfold mbind, M_bind, getattr. rewrite H. reflexivity. Qed.

Lemma getattr_some {B} name v (k : value → M B) s :
  s !! name = Some v → (getattr name ≫= k) s = k v s.
Proof. intros H. unfold mbind, M_bind, getattr. rewrite H. reflexivity. Qed.

(** Without the signing key the check ends at the lookup of the key. *)
Lemma check_user_access_no_key
    (jwt_decode : string → string → result (gmap string jval)) w now s :
  secrets w !! "SECRET_KEY" = None →
  check_user_access jwt_decode w now s = Outcome [CheckUserAccess] s (Ok false).
Proof.
  intros Hk. unfold check_user_access. apply run_emit.
  destruct (s !! "user_access_token") as [tok|] eqn:E.
  - erewrite try_except_raise; cycle 1.
    { rewrite (getattr_some _ _ _ _ E). rewrite bind_pure. unfold getitem.
      rewrite Hk. reflexivity. }
    reflexivity.
  - erewrite try_except_raise; cycle 1.
    { by rewrite (getattr_none _ _ _ E). }
    reflexivity.
Qed.

(** ** X1: the risk client without credentials *)

(** X1. [get_metrics] never raises and never touches the session. When the
    bearer token or the base URL is not configured it sends no request
    and returns the empty list. *)
Theorem get_metrics_degrades w names s :
  out_state (get_metrics w names s) = s
  ∧ (∃ charts, out_result (get_metrics w names s) = Ok charts)
  ∧ (secrets w !! "TOKEN" = None ∨ secrets w !! "URL" = None →
     get_metrics w names s = Outcome [] s (Ok [])).
Proof.
  split; [apply preserves_get_metrics|]. split.
  - destruct (get_metrics_total w names s) as [charts ->]. by exists charts.
  - apply get_metrics_no_credentials.
Qed.

Lemma get_metrics_degrades_witness :
  get_metrics Outage.unconfigured ["bitcoin"; "ethereum"] Fixture.logged_in
  = Outcome [] Fixture.logged_in (Ok []).
Proof.
  apply (get_metrics_degrades Outage.unconfigured ["bitcoin"; "ethereum"] Fixture.logged_in).
  left. reflexivity.
Defined.

(** ** X2: one request per asset *)

(** X2. With the credentials configured, [get_metrics] sends one request per
    asset id, in input order, to the base URL followed by the id and with
    the bearer token, whether or not some of the fetches fail. *)
Theorem get_metrics_requests w names s token base_url :
  secrets w !! "TOKEN" = Some token → secrets w !! "URL" = Some base_url →
  out_events (get_metrics w names s)
  = map (λ name, RiskGet token (base_url +:+ name)) names.
Proof.
  intros Ht Hu. rewrite (get_metrics_with_secrets _ _ _ _ _ Ht Hu). cbn.
  by destruct (gather_get_risk w token base_url names s) as (_ & -> & _).
Qed.

Lemma get_metrics_requests_witness :
  out_events (get_metrics Fixture.the_world ["bitcoin"; "ethereum"; "solana"] ∅)
  = [RiskGet "bearer" "https://risk.example/bitcoin";
     RiskGet "bearer" "https://risk.example/ethereum";
     RiskGet "bearer" "https://risk.example/solana"].
Proof.
  exact (get_metrics_requests Fixture.the_world ["bitcoin"; "ethereum"; "solana"] ∅
           "bearer" "https://risk.example/" eq_refl eq_refl).
Defined.

(** ** X3: a failing price request *)

(** X3. When the price request raises, the run raises the same exception: no
    coin block is rendered, the closing [update_state] is not run, and
    the session is the one the opening [update_state] left. *)
Theorem main_propagates_price_failure
    (jwt_decode : string → string → result (gmap string jval))
    w coins now_first now_last button st e :
  price_api w (String.concat "," (map coin_id coins)) = Raise e →
  out_result (main jwt_decode w coins now_first now_last button st) = Raise e
  ∧ out_state (main jwt_decode w coins now_first now_last button st)
    = out_state (update_state jwt_decode w now_first ∅ st)
  ∧ Forall (λ ev, rendered ev = false)
      (out_events (main jwt_decode w coins now_first now_last button st)).
Proof.
  intros Hp. rewrite main_run, Hp. cbn. split; [done|]. split; [done|].
  apply Forall_app. split; [by apply emits_update_state|].
  apply Forall_app. split; [|by repeat constructor].
  case_match; [by apply emits_get_metrics | constructor].
Qed.

Lemma main_propagates_price_failure_witness :
  main Fixture.jwt_decode Outage.no_prices [Fixture.bitcoin] 1000.5 1000.5 false
    Fixture.logged_in
  = Outcome [RiskGet "bearer" "https://risk.example/bitcoin"; PriceGet "bitcoin"]
      (out_state (update_state Fixture.jwt_decode Outage.no_prices 1000.5 ∅
                    Fixture.logged_in))
      (Raise ClientError).
Proof.
  destruct (main_propagates_price_failure Fixture.jwt_decode Outage.no_prices
              [Fixture.bitcoin] 1000.5%float 1000.5%float false Fixture.logged_in
              ClientError eq_refl) as (Hr & Hs & _).
  transitivity (Outcome
    (out_events (main Fixture.jwt_decode Outage.no_prices [Fixture.bitcoin]
                   1000.5 1000.5 false Fixture.logged_in))
    (out_state (main Fixture.jwt_decode Outage.no_prices [Fixture.bitcoin]
                  1000.5 1000.5 false Fixture.logged_in))
    (out_result (main Fixture.jwt_decode Outage.no_prices [Fixture.bitcoin]
                   1000.5 1000.5 false Fixture.logged_in))); [reflexivity|].
  rewrite Hr, Hs. f_equal.
Defined.

(** ** X4: the one-shot flags *)

(** X4. Every pass of [update_state] returns without raising and leaves the
    four attributes set, with [button_pressed] and [callback] both
    [False]: the two flags are one-shot. *)
Theorem update_state_resets_flags
    (jwt_decode : string → string → result (gmap string jval)) w now kwargs st :
  out_result (update_state jwt_decode w now kwargs st) = Ok tt
  ∧ Forall (λ name, is_Some (out_state (update_state jwt_decode w now kwargs st) !! name))
      session_attributes
  ∧ out_state (update_state jwt_decode w now kwargs st) !! "button_pressed"
    = Some (VBool false)
  ∧ out_state (update_state jwt_decode w now kwargs st) !! "callback" = Some (VBool false).
Proof.
  destruct (update_state_flags_reset jwt_decode w now kwargs st)
    as (Hr & (Ht & Ha & Hb & Hc) & Hbp & Hcb).
  split; [done|]. split; [|done].
  unfold session_attributes. repeat constructor; by apply has_attr_is_Some.
Qed.

(** ** X5: the attributes update_state leaves alone *)

(** X5. [update_state] leaves every attribute alone that is not one of its
    four and not among the keyword arguments. *)
Theorem update_state_frame
    (jwt_decode : string → string → result (gmap string jval)) w now kwargs st name :
  name ∉ session_attributes → kwargs !! name = None →
  out_state (update_state jwt_decode w now kwargs st) !! name = st !! name.
Proof.
  intros Hn Hk. rewrite update_state_run. cbn.
  assert (H4 : name ≠ "user_access_token" ∧ name ≠ "authenticated"
               ∧ name ≠ "button_pressed" ∧ name ≠ "callback").
  { unfold session_attributes in Hn. set_solver. }
  destruct H4 as (H1 & H2 & H3 & H4).
  rewrite !lookup_insert_ne by done.
  rewrite validated_lookup by done.
  rewrite entry_state_lookup_other by done.
  by rewrite lookup_union_r.
Qed.

Lemma update_state_frame_witness :
  out_state (update_state Fixture.jwt_decode Fixture.the_world 1000.5
               {["callback" := VBool true]}
               (<["theme" := VStr "dark"]> Fixture.with_garbage)) !! "theme"
  = Some (VStr "dark").
Proof.
  rewrite (update_state_frame Fixture.jwt_decode Fixture.the_world 1000.5%float
             {["callback" := VBool true]}
             (<["theme" := VStr "dark"]> Fixture.with_garbage) "theme").
  - reflexivity.
  - unfold session_attributes. intros H. repeat (apply elem_of_cons in H as [H|H];
      [discriminate|]). inversion H.
  - reflexivity.
Defined.

(** ** X6: what check_user_access changes *)

(** X6. [check_user_access] changes no attribute but [user_access_token],
    which it leaves as it was or sets to [None]; when it answers [True]
    the session is unchanged. When the signing key is not configured it
    answers [False] for every stored token and changes nothing. *)
Theorem check_user_access_session_effect
    (jwt_decode : string → string → result (gmap string jval)) w now s :
  (∀ name, name ≠ "user_access_token" →
     out_state (check_user_access jwt_decode w now s) !! name = s !! name)
  ∧ (out_state (check_user_access jwt_decode w now s) !! "user_access_token"
     = s !! "user_access_token"
     ∨ out_state (check_user_access jwt_decode w now s) !! "user_access_token"
       = Some VNone)
  ∧ (out_result (check_user_access jwt_decode w now s) = Ok true →
     out_state (check_user_access jwt_decode w now s) = s)
  ∧ (secrets w !! "SECRET_KEY" = None →
     check_user_access jwt_decode w now s = Outcome [CheckUserAccess] s (Ok false)).
Proof.
  split; [|split; [|split]].
  - intros name Hn. by apply check_user_access_lookup.
  - destruct (check_user_access_sound jwt_decode w now s)
      as (b & s' & -> & [->|[-> _]] & _); cbn; [by left|].
    right. apply lookup_insert_eq.
  - destruct (check_user_access_sound jwt_decode w now s) as (b & s' & -> & _ & Ht).
    cbn. intros [= ->]. by destruct (Ht eq_refl).
  - apply check_user_access_no_key.
Qed.

Lemma check_user_access_session_effect_witness :
  check_user_access Fixture.jwt_decode Outage.unconfigured 1000.5
    {["user_access_token" := VStr "until-2000"]}
  = Outcome [CheckUserAccess] {["user_access_token" := VStr "until-2000"]} (Ok false).
Proof.
  apply (check_user_access_session_effect Fixture.jwt_decode Outage.unconfigured
           1000.5%float {["user_access_token" := VStr "until-2000"]}).
  reflexivity.
Defined.

(** ** X7: a token that passes validation *)

(** X7. A pass of [update_state] that validates the stored token and finds it
    valid leaves the session authenticated and the token stored; it shows
    "Successfully Authenticated" when the button was pressed with the
    callback flag set and nothing otherwise. *)
Theorem update_state_accepted_token
    (jwt_decode : string → string → result (gmap string jval)) w now kwargs st :
  let s0 := entry_state kwargs st in
  let o := update_state jwt_decode w now kwargs st in
  needs_validation s0 = true →
  out_result (check_user_access jwt_decode w now s0) = Ok true →
  out_state o !! "authenticated" = Some (VBool true)
  ∧ out_state o !! "user_access_token" = s0 !! "user_access_token"
  ∧ out_events o
    = CheckUserAccess ::
      (if truthy (attr "button_pressed" s0) && truthy (attr "callback" s0)
       then [Success "Successfully Authenticated"; Balloons] else []).
Proof.
  intros s0 o Hneeds Htrue. unfold o. rewrite update_state_run. fold s0. cbn.
  destruct (check_user_access_sound jwt_decode w now s0) as (b & s' & E & _ & Hs).
  rewrite E in Htrue. injection Htrue as ->. destruct (Hs eq_refl) as [-> _].
  unfold validated. rewrite Hneeds, E. cbn.
  rewrite !lookup_insert_ne by done. rewrite lookup_insert_eq.
  split; [done|]. split; [by rewrite !lookup_insert_ne by done|].
  rewrite attr_insert_eq. cbn. unfold message_of. cbn.
  by destruct (truthy (attr "button_pressed" s0)), (truthy (attr "callback" s0)).
Qed.

Lemma update_state_accepted_token_witness :
  let o := update_state Fixture.jwt_decode Fixture.the_world 1000.5 ∅
             {["user_access_token" := VStr "until-2000"]} in
  out_state o !! "authenticated" = Some (VBool true)
  ∧ out_state o !! "user_access_token" = Some (VStr "until-2000")
  ∧ out_events o = [CheckUserAccess].
Proof.
  destruct (update_state_accepted_token Fixture.jwt_decode Fixture.the_world 1000.5%float ∅
              {["user_access_token" := VStr "until-2000"]}) as (Ha & Ht & He);
    [vm_compute; reflexivity | vm_compute; reflexivity |].
  split; [exact Ha|]. split; [exact Ht | exact He].
Defined.

(** ** X8: issue, submit, authenticate *)

(** X8. Issue and submit. With the signing key configured and a library that
    decodes the issued token to the payload it was made from, the token
    of [generate_user_access], submitted through the button while its
    expiry is not in the past, authenticates the session: the token is
    stored, the check is run once and "Successfully Authenticated" is
    shown. *)
Theorem issued_token_authenticates
    (jwt_decode : string → string → result (gmap string jval))
    (jwt_encode : gmap string jval → string → string)
    w now later key n st st' :
  secrets w !! "SECRET_KEY" = Some key →
  let token := jwt_encode {["exp" := JFloat (now + 99999999)%float]} key in
  jwt_decode token key = Ok {["exp" := JFloat (now + 99999999)%float]} →
  token ≠ "" →
  py_int later = Ok n → float_ge_int (now + 99999999)%float n = true →
  out_result (generate_user_access jwt_encode w now st) = Ok token
  ∧ out_events (on_click jwt_decode w later token st')
    = [CheckUserAccess; Success "Successfully Authenticated"; Balloons]
  ∧ out_state (on_click jwt_decode w later token st') !! "authenticated"
    = Some (VBool true)
  ∧ out_state (on_click jwt_decode w later token st') !! "user_access_token"
    = Some (VStr token).
Proof.
  intros Hk token Hd Hne Hn Hge. split.
  { unfold generate_user_access. rewrite bind_pure. unfold getitem. by rewrite Hk. }
  unfold on_click.
  set (kwargs := <["user_access_token" := VStr token]>
                   (<["button_pressed" := VBool true]> {["callback" := VBool true]})).
  set (s0 := entry_state kwargs st').
  assert (Ht : s0 !! "user_access_token" = Some (VStr token)).
  { apply entry_state_lookup_kwargs. apply lookup_insert_eq. }
  assert (Hb : s0 !! "button_pressed" = Some (VBool true)).
  { apply entry_state_lookup_kwargs. unfold kwargs.
    rewrite lookup_insert_ne by done. apply lookup_insert_eq. }
  assert (Hc : s0 !! "callback" = Some (VBool true)).
  { apply entry_state_lookup_kwargs. unfold kwargs.
    rewrite !lookup_insert_ne by done. apply lookup_singleton_eq. }
  assert (Htruthy : truthy (VStr token) = true).
  { cbn. apply negb_true_iff. by apply String.eqb_neq. }
  assert (Hneeds : needs_validation s0 = true).
  { apply needs_validation_iff. rewrite (attr_lookup _ _ _ Ht), (attr_lookup _ _ _ Hb).
    split; [done | by right]. }
  assert (Hcheck : check_user_access jwt_decode w later s0
                   = Outcome [CheckUserAccess] s0 (Ok true)).
  { rewrite (check_user_access_token jwt_decode w later s0 token key Ht Hk), Hd.
    rewrite lookup_singleton_eq, Hn. cbn. by rewrite Hge. }
  rewrite update_state_run. fold s0. cbn.
  unfold validated. rewrite Hneeds, Hcheck. cbn.
  rewrite (attr_lookup _ _ _ Hb), (attr_lookup _ _ _ Hc), attr_insert_eq. cbn.
  split; [done|]. split.
  - rewrite !lookup_insert_ne by done. apply lookup_insert_eq.
  - by rewrite !lookup_insert_ne by done.
Qed.

Lemma issued_token_authenticates_witness :
  out_result (generate_user_access Codec.jwt_encode Fixture.the_world 1000 ∅)
  = Ok "jwt.s3cret"
  ∧ out_events (on_click Codec.jwt_decode Fixture.the_world 2000.5 "jwt.s3cret" ∅)
    = [CheckUserAccess; Success "Successfully Authenticated"; Balloons]
  ∧ out_state (on_click Codec.jwt_decode Fixture.the_world 2000.5 "jwt.s3cret" ∅)
      !! "authenticated" = Some (VBool true)
  ∧ out_state (on_click Codec.jwt_decode Fixture.the_world 2000.5 "jwt.s3cret" ∅)
      !! "user_access_token" = Some (VStr "jwt.s3cret").
Proof.
  apply (issued_token_authenticates Codec.jwt_decode Codec.jwt_encode Fixture.the_world
           1000%float 2000.5%float "s3cret" 2000%Z ∅ ∅).
  - reflexivity.
  - vm_compute. reflexivity.
  - discriminate.
  - vm_compute. reflexivity.
  - vm_compute. reflexivity.
Defined.

(** ** X9: a click with an empty input *)

(** X9. A click with an empty input stores the empty string as the token and
    runs no check, so the session is as authenticated as it was: an
    authenticated session stays authenticated and is shown "Successfully
    Authenticated" again, an unauthenticated one is shown nothing in the
    pass run by the click. *)
Theorem on_click_empty_input
    (jwt_decode : string → string → result (gmap string jval)) w now st :
  out_state (on_click jwt_decode w now "" st) !! "user_access_token" = Some (VStr "")
  ∧ truthy (attr "authenticated" (out_state (on_click jwt_decode w now "" st)))
    = truthy (attr "authenticated" st)
  ∧ out_events (on_click jwt_decode w now "" st)
    = if truthy (attr "authenticated" st)
      then [Success "Successfully Authenticated"; Balloons] else [].
Proof.
  unfold on_click.
  set (kwargs := <["user_access_token" := VStr ""]>
                   (<["button_pressed" := VBool true]> {["callback" := VBool true]})).
  set (s0 := entry_state kwargs st).
  assert (Ht : s0 !! "user_access_token" = Some (VStr "")).
  { apply entry_state_lookup_kwargs. apply lookup_insert_eq. }
  assert (Hb : s0 !! "button_pressed" = Some (VBool true)).
  { apply entry_state_lookup_kwargs. unfold kwargs.
    rewrite lookup_insert_ne by done. apply lookup_insert_eq. }
  assert (Hc : s0 !! "callback" = Some (VBool true)).
  { apply entry_state_lookup_kwargs. unfold kwargs.
    rewrite !lookup_insert_ne by done. apply lookup_singleton_eq. }
  assert (Ha : truthy (attr "authenticated" s0) = truthy (attr "authenticated" st)).
  { apply truthy_attr_entry_state_kwargs. unfold kwargs.
    rewrite !lookup_insert_ne by done. apply lookup_singleton_ne. done. }
  assert (Hneeds : needs_validation s0 = false).
  { unfold needs_validation. by rewrite (attr_lookup _ _ _ Ht). }
  rewrite update_state_run. fold s0. cbn. unfold validated. rewrite Hneeds. cbn.
  rewrite (attr_lookup _ _ _ Hb), (attr_lookup _ _ _ Hc), (attr_lookup _ _ _ Ht). cbn.
  split; [by rewrite !lookup_insert_ne by done|]. split.
  - by rewrite !attr_insert_ne by done.
  - unfold message_of. rewrite Ha. by destruct (truthy (attr "authenticated" st)).
Qed.

(** ** X10: the session after a run *)

(** X10. After every run of the script, whether it returns or raises, the four
    attributes are set and [button_pressed] and [callback] are [False]. *)
Theorem main_leaves_flags_reset
    (jwt_decode : string → string → result (gmap string jval))
    w coins now_first now_last button st :
  Forall (λ name, is_Some (out_state (main jwt_decode w coins now_first now_last button st)
                             !! name)) session_attributes
  ∧ out_state (main jwt_decode w coins now_first now_last button st) !! "button_pressed"
    = Some (VBool false)
  ∧ out_state (main jwt_decode w coins now_first now_last button st) !! "callback"
    = Some (VBool false).
Proof.
  assert (H : flags_reset (out_state (main jwt_decode w coins now_first now_last button st))).
  { rewrite main_run. cbn zeta.
    destruct (price_api w _) as [data|e]; [|apply update_state_flags_reset].
    destruct (out_result _); apply update_state_flags_reset. }
  destruct H as ((Ht & Ha & Hb & Hc) & Hbp & Hcb). split; [|done].
  unfold session_attributes. repeat constructor; by apply has_attr_is_Some.
Qed.

(** Without charts the block of a coin has no risk line, no chart and no
    "No Chart Data". *)
Lemma render_coin_no_charts_plain coins data i c :
  emits (λ ev, chart_event ev = false) (render_coin coins data [] i c).
Proof.
  unfold render_coin.
  apply emits_bind; [apply emits_lift|]. intros quote.
  case_match; [apply emits_mret|].
  apply emits_bind; [apply emits_lift|]. intros entry.
  apply emits_bind; [by apply emits_emit|]. intros _.
  apply emits_bind; [apply emits_lift|]. intros usd.
  apply emits_bind; [apply emits_lift|]. intros change.
  apply emits_bind; [by apply emits_emit|]. intros _.
  intros s. cbn. repeat constructor.
Qed.

(** The block of a coin consists of widgets only. *)
Lemma render_coin_rendered coins data charts i c :
  emits (λ ev, rendered ev = true) (render_coin coins data charts i c).
Proof.
  unfold render_coin.
  repeat first
    [ apply emits_mret | apply emits_lift | apply emits_getattr
    | apply emits_fmap | apply emits_and
    | apply emits_emit; reflexivity
    | apply emits_bind; [|intros ?]
    | case_match ].
Qed.

(** ** X11: a null slot *)

(** X11. In an authenticated session, the block of a coin that has a quote and
    whose slot in a non-empty chart list is null shows the header, the
    metric and "No Chart Data". *)
Theorem render_coin_null_slot coins data charts i c s quote entry usd change v :
  data !! c = Some quote →
  quote !! "usd" = Some usd → quote !! "usd_24h_change" = Some change →
  coins !! i = Some entry →
  charts !! i = Some None →
  s !! "authenticated" = Some v → truthy v = true →
  render_coin coins data charts i c s
  = Outcome [Header (coin_name entry); Metric usd change; Text "No Chart Data"] s (Ok tt).
Proof.
  intros Hq Hu Hc He Hch Ha Hv. unfold render_coin.
  eapply run_lift; [by apply getitem_some|].
  rewrite (size_quote_nonzero _ _ _ Hu).
  eapply run_lift; [by apply list_item_some|].
  apply run_emit.
  eapply run_lift; [by apply getitem_some|].
  eapply run_lift; [by apply getitem_some|].
  apply run_emit.
  unfold and_, fmap, M_fmap, mbind, M_bind, mret, M_ret, lift, getattr, emit, list_item.
  rewrite (length_nonzero _ _ _ Hch), Hch. cbn. rewrite Ha. cbn. rewrite Hv. cbn.
  reflexivity.
Qed.

Lemma render_coin_null_slot_witness :
  render_coin [Fixture.bitcoin; Fixture.dogecoin]
    {["dogecoin" := <["usd" := 0.25%float]> {["usd_24h_change" := 1.5%float]}]}
    [Some [(40000, 10); (60000, 30)]%float; None] 1 "dogecoin" Fixture.logged_in
  = Outcome [Header "dogecoin"; Metric 0.25 1.5; Text "No Chart Data"]
      Fixture.logged_in (Ok tt).
Proof.
  apply (render_coin_null_slot [Fixture.bitcoin; Fixture.dogecoin]
           {["dogecoin" := <["usd" := 0.25%float]> {["usd_24h_change" := 1.5%float]}]}
           [Some [(40000, 10); (60000, 30)]%float; None] 1 "dogecoin" Fixture.logged_in
           (<["usd" := 0.25%float]> {["usd_24h_change" := 1.5%float]})
           Fixture.dogecoin 0.25%float 1.5%float (VBool true)); reflexivity.
Defined.

(** ** X12: one failed fetch blanks every chart *)

(** X12. When the credentials are configured and the fetch of some coin of the
    catalog raises, the run shows no risk figure, no chart and no "No
    Chart Data" for any coin, authenticated or not: the failure of one
    fetch leaves every block with its header and metric only. *)
Theorem main_failed_fetch_shows_no_chart
    (jwt_decode : string → string → result (gmap string jval))
    w coins now_first now_last button st token base_url :
  secrets w !! "TOKEN" = Some token → secrets w !! "URL" = Some base_url →
  Exists (λ c, is_ok (slot_of (risk_api w token (base_url +:+ coin_id c))) = false) coins →
  Forall (λ ev, chart_event ev = false)
    (out_events (main jwt_decode w coins now_first now_last button st)).
Proof.
  intros Ht Hu Hbad. rewrite main_run. cbn zeta.
  set (s1 := out_state (update_state jwt_decode w now_first ∅ st)).
  set (ids := map coin_id coins).
  set (om := if truthy (attr "authenticated" s1) then get_metrics w ids s1
             else Outcome [] s1 (Ok [])).
  assert (Hcharts : match out_result om with Ok c => c | Raise _ => [] end = []).
  { unfold om. destruct (truthy (attr "authenticated" s1)); [|done].
    rewrite (get_metrics_with_secrets _ _ _ _ _ Ht Hu). cbn.
    destruct (gather_get_risk w token base_url ids s1) as (_ & _ & _ & Hraise).
    assert (Hr : is_ok (out_result
                   (gather (map (λ name, get_risk w token (base_url +:+ name)) ids) s1))
                 = false).
    { apply Hraise. unfold ids. by apply Exists_fmap. }
    by destruct (out_result _). }
  rewrite Hcharts.
  assert (Hom : Forall (λ ev, chart_event ev = false) (out_events om)).
  { unfold om. destruct (truthy (attr "authenticated" s1));
      [by apply emits_get_metrics | constructor]. }
  assert (H1 : Forall (λ ev, chart_event ev = false)
                 (out_events (update_state jwt_decode w now_first ∅ st))).
  { by apply emits_update_state. }
  destruct (price_api w _) as [data|e].
  - assert (Hl : Forall (λ ev, chart_event ev = false)
                   (out_events (for_enumerate 0 ids (render_coin coins data []) s1))).
    { apply emits_for_enumerate. intros. apply render_coin_no_charts_plain. }
    destruct (out_result (for_enumerate 0 ids (render_coin coins data []) s1)); cbn.
    + repeat (apply Forall_app; split; try done). constructor; [done|].
      apply Forall_app. split; [done|]. by apply emits_update_state.
    + repeat (apply Forall_app; split; try done). by constructor.
  - cbn. repeat (apply Forall_app; split; try done). by repeat constructor.
Qed.

Lemma main_failed_fetch_shows_no_chart_witness :
  out_events (main Fixture.jwt_decode Fixture.the_world [Fixture.bitcoin; Fixture.ethereum]
                1000.5 1000.5 false Fixture.logged_in)
  = [RiskGet "bearer" "https://risk.example/bitcoin";
     RiskGet "bearer" "https://risk.example/ethereum";
     PriceGet "bitcoin,ethereum";
     Header "bitcoin"; Metric 50000 2.1; Header "ethereum"; Metric 3000 (-1)]%float
  ∧ Forall (λ ev, chart_event ev = false)
      (out_events (main Fixture.jwt_decode Fixture.the_world
                     [Fixture.bitcoin; Fixture.ethereum] 1000.5 1000.5 false
                     Fixture.logged_in)).
Proof.
  split; [vm_compute; reflexivity|].
  apply (main_failed_fetch_shows_no_chart Fixture.jwt_decode Fixture.the_world
           [Fixture.bitcoin; Fixture.ethereum] 1000.5%float 1000.5%float false
           Fixture.logged_in "bearer" "https://risk.example/" eq_refl eq_refl).
  right. left. reflexivity.
Defined.

(** ** X13: the matched index in full *)

(** X13. [matched_index] in full: it raises [ValueError] exactly when no row
    has a price at or below the quote (so on the empty curve and on a NaN
    quote), it returns [k] exactly when row [k] is the last such row, and
    it raises nothing else. The curve is not sorted: the last row in
    list order wins, whatever the prices of the earlier rows. *)
Theorem matched_index_characterisation (df : DataFrame) (usd : float) :
  (matched_index df usd = Raise ValueError ↔
   Forall (λ row : float * float, (row.1 <=? usd)%float = false) df)
  ∧ (∀ k, matched_index df usd = Ok k ↔
          (∃ row, df !! k = Some row ∧ (row.1 <=? usd)%float = true)
          ∧ ∀ j row, k < j → df !! j = Some row → (row.1 <=? usd)%float = false)
  ∧ (∀ e, matched_index df usd = Raise e → e = ValueError).
Proof.
  split; [|split].
  - split; [|apply matched_index_below_range].
    unfold matched_index. fold (selected df usd).
    destruct (selected df usd) as [|i l] eqn:E; [|discriminate]. intros _.
    apply Forall_lookup. intros i row Hl.
    destruct (row.1 <=? usd)%float eqn:Hp; [|done].
    assert (i ∈ selected df usd) as Hin by (apply elem_of_selected; eauto).
    rewrite E in Hin. inversion Hin.
  - intros k. apply matched_index_spec.
  - intros e. unfold matched_index, py_max. case_match; [|discriminate]. by intros [= <-].
Qed.

(** ** X14: one price request per run *)

(** X14. Every run of the script sends exactly one request to the price
    provider, for the ids of the whole catalog joined by commas, whatever
    the session and whatever the risk provider answers. *)
Theorem main_single_price_request
    (jwt_decode : string → string → result (gmap string jval))
    w coins now_first now_last button st :
  List.filter is_price_request
    (out_events (main jwt_decode w coins now_first now_last button st))
  = [PriceGet (String.concat "," (map coin_id coins))].
Proof.
  rewrite main_run. cbn zeta.
  set (s1 := out_state (update_state jwt_decode w now_first ∅ st)).
  set (ids := map coin_id coins).
  set (om := if truthy (attr "authenticated" s1) then get_metrics w ids s1
             else Outcome [] s1 (Ok [])).
  assert (Hom : List.filter is_price_request (out_events om) = []).
  { apply filter_none. unfold om. destruct (truthy (attr "authenticated" s1));
      [by apply emits_get_metrics | constructor]. }
  assert (H1 : List.filter is_price_request
                 (out_events (update_state jwt_decode w now_first ∅ st)) = []).
  { apply filter_none. by apply emits_update_state. }
  destruct (price_api w _) as [data|e].
  - assert (Hl : List.filter is_price_request
                   (out_events (for_enumerate 0 ids
                      (render_coin coins data
                         match out_result om with Ok c => c | Raise _ => [] end) s1)) = []).
    { apply filter_none.
      eapply Forall_impl; [apply emits_for_enumerate; intros; apply render_coin_rendered|].
      by intros []. }
    destruct (out_result (for_enumerate 0 ids _ s1)); cbn.
    + rewrite !List.filter_app, H1, Hom. cbn. rewrite List.filter_app, Hl. cbn.
      f_equal. apply filter_none. by apply emits_update_state.
    + rewrite !List.filter_app, H1, Hom. cbn. by rewrite Hl.
  - cbn. rewrite !List.filter_app, H1, Hom. reflexivity.
Qed.

(** ** X15: a curve without a match *)

(** X15. In an authenticated session, the block of a coin that has a quote and
    a curve none of whose prices is at or below the quote, the empty
    curve included, shows the header and the metric and then raises
    [ValueError]; the session is unchanged. *)
Theorem render_coin_unmatched_curve
    coins data charts i c s quote entry usd change df v :
  data !! c = Some quote →
  quote !! "usd" = Some usd → quote !! "usd_24h_change" = Some change →
  coins !! i = Some entry →
  charts !! i = Some (Some df) →
  s !! "authenticated" = Some v → truthy v = true →
  Forall (λ row : float * float, (row.1 <=? usd)%float = false) df →
  render_coin coins data charts i c s
  = Outcome [Header (coin_name entry); Metric usd change] s (Raise ValueError).
Proof. apply render_coin_below_range. Qed.

Lemma render_coin_unmatched_curve_witness :
  render_coin [Fixture.bitcoin]
    {["bitcoin" := <["usd" := 50000%float]> {["usd_24h_change" := 2.1%float]}]}
    [Some []] 0 "bitcoin" Fixture.logged_in
  = Outcome [Header "bitcoin"; Metric 50000 2.1] Fixture.logged_in (Raise ValueError).
Proof.
  apply (render_coin_unmatched_curve [Fixture.bitcoin]
           {["bitcoin" := <["usd" := 50000%float]> {["usd_24h_change" := 2.1%float]}]}
           [Some []] 0 "bitcoin" Fixture.logged_in
           (<["usd" := 50000%float]> {["usd_24h_change" := 2.1%float]})
           Fixture.bitcoin 50000%float 2.1%float [] (VBool true));
    first [reflexivity | constructor].
Defined.

(** ** X16: a coin by its quote *)

(** X16. The block of a coin by its entry in the price data: an entry that is
    an empty object is skipped, with nothing rendered and no exception;
    a coin with no entry raises [KeyError] for its id before anything is
    rendered; an entry with "usd" but without "usd_24h_change" raises
    [KeyError] after the header is rendered. *)
Theorem render_coin_by_quote coins data charts i c s :
  (∀ quote, data !! c = Some quote → size quote = 0 →
     render_coin coins data charts i c s = Outcome [] s (Ok tt))
  ∧ (data !! c = None →
     render_coin coins data charts i c s = Outcome [] s (Raise (KeyError c)))
  ∧ (∀ quote entry usd,
       data !! c = Some quote → coins !! i = Some entry →
       quote !! "usd" = Some usd → quote !! "usd_24h_change" = None →
       render_coin coins data charts i c s
       = Outcome [Header (coin_name entry)] s (Raise (KeyError "usd_24h_change"))).
Proof.
  split; [|split].
  - intros quote. apply render_coin_skips.
  - apply render_coin_absent.
  - intros quote entry usd Hq He Hu Hc. unfold render_coin.
    eapply run_lift; [by apply getitem_some|].
    rewrite (size_quote_nonzero _ _ _ Hu).
    eapply run_lift; [by apply list_item_some|].
    apply run_emit.
    eapply run_lift; [by apply getitem_some|].
    rewrite bind_pure. unfold getitem. by rewrite Hc.
Qed.

Lemma render_coin_by_quote_witness :
  render_coin [Fixture.dogecoin] {["delisted" := ∅]} [] 0 "delisted" ∅
  = Outcome [] ∅ (Ok tt)
  ∧ render_coin [Fixture.dogecoin] {["delisted" := ∅]} [] 0 "dogecoin" ∅
    = Outcome [] ∅ (Raise (KeyError "dogecoin"))
  ∧ render_coin [Fixture.dogecoin] {["dogecoin" := {["usd" := 0.25%float]}]} [] 0
      "dogecoin" ∅
    = Outcome [Header "dogecoin"] ∅ (Raise (KeyError "usd_24h_change")).
Proof.
  split; [|split].
  - apply (proj1 (render_coin_by_quote [Fixture.dogecoin] {["delisted" := ∅]} [] 0
                    "delisted" ∅) ∅); reflexivity.
  - apply (proj1 (proj2 (render_coin_by_quote [Fixture.dogecoin] {["delisted" := ∅]} [] 0
                           "dogecoin" ∅))). reflexivity.
  - apply (proj2 (proj2 (render_coin_by_quote [Fixture.dogecoin]
                           {["dogecoin" := {["usd" := 0.25%float]}]} [] 0 "dogecoin" ∅))
             {["usd" := 0.25%float]} Fixture.dogecoin 0.25%float); reflexivity.
Defined.
